(** * Is Alex an Entrepreneur? -- the reconciliation layer of [src/App.jsx]

    The React component of [src/App.jsx] keeps a list of ventures in
    [localStorage], fetches an equity price series and a Bitcoin spot price,
    and derives totals from them.  This development embeds that logic:

    - [JS]: the fragment of the JavaScript platform the component calls
      (IEEE 754 numbers, [Math.round], [parseFloat],
      [Number.prototype.toLocaleString], [String.prototype.trim], the
      calendar arithmetic of [Date], [JSON] over venture lists);
    - [App]: the component itself, one definition per piece of the source,
      under the source's names;
    - the properties of the component, at the end.

    JavaScript numbers are binary64 floating-point numbers; they are modelled
    by Rocq's primitive floats, which are the same format with the same
    rounding, so that the arithmetic of the source is evaluated bit for bit. *)

From Stdlib Require Import ZArith List String Ascii Bool Lia Floats DecimalString.
Import ListNotations.

Open Scope string_scope.

(* The decimal constants of the source (89.83, 117384.44, 1.027) are read as
   JavaScript reads them: the closest binary64 value. *)
Set Warnings "-inexact-float".

(* ================================================================== *)
(** ** The JavaScript platform                                         *)
(* ================================================================== *)

Module JS.

(** *** Numbers *)

Definition number := float.
Bind Scope float_scope with number.

(** The Number value of a mathematical integer, rounded to nearest, ties to
    even (exact below 2^53). *)
Definition number_of_Z (z : Z) : number :=
  SF2Prim (binary_normalize prec emax z 0 false).

(** ToBoolean on a Number: [NaN], [+0] and [-0] are falsy. *)
Definition truthy (x : number) : bool :=
  negb (is_nan x || is_zero x).

(** [x || 0] on a Number. *)
Definition or_zero (x : number) : number :=
  if truthy x then x else 0%float.

(** [Math.round] (ECMA-262, 21.3.2.28): a value that is not finite or is
    already integral is returned as it is; otherwise the closest integral
    Number, the one closer to +infinity on a tie, with [-0] for a result of
    zero from a negative argument.  [Prim2SF] gives the exact value
    [(-1)^s * m * 2^e] of a finite float. *)
Definition Math_round (x : number) : number :=
  match Prim2SF x with
  | S754_finite s m e =>
      if (0 <=? e)%Z then x
      else
        let d := (2 ^ (- e))%Z in
        let q := (Z.pos m / d)%Z in
        let r := (Z.pos m mod d)%Z in
        if (r =? 0)%Z then x
        else if s then
          let n := (if 2 * r <=? d then q else q + 1)%Z in
          if (n =? 0)%Z then neg_zero else number_of_Z (- n)
        else
          number_of_Z (if 2 * r <? d then q else q + 1)%Z
  | _ => x
  end.

(** *** Strings

    A string is its sequence of code units; the model carries the code units
    below 256 (one [ascii] each). *)

(** WhiteSpace and LineTerminator code units (ECMA-262, 12.2 and 12.3): TAB,
    LF, VT, FF, CR, SP and NBSP. *)
Definition is_white_space (c : ascii) : bool :=
  let n := nat_of_ascii c in
  ((9 <=? n) && (n <=? 13) || (n =? 32) || (n =? 160))%nat.

Fixpoint trimStart (s : string) : string :=
  match s with
  | String c s' => if is_white_space c then trimStart s' else s
  | EmptyString => EmptyString
  end.

Fixpoint trimEnd (s : string) : string :=
  match s with
  | String c s' =>
      match trimEnd s' with
      | EmptyString => if is_white_space c then EmptyString else String c EmptyString
      | t => String c t
      end
  | EmptyString => EmptyString
  end.

(** [String.prototype.trim] *)
Definition trim (s : string) : string := trimEnd (trimStart s).

(** ToBoolean on a String: only the empty string is falsy. *)
Definition truthy_string (s : string) : bool :=
  match s with EmptyString => false | _ => true end.

(** *** Values

    The values a venture's [revenue] can hold: a Number in the running
    component, a String when it comes from the form's input, and whatever a
    stored document gave it. *)
Inductive value : Type :=
| VUndefined
| VNull
| VBool (b : bool)
| VNum (x : number)
| VStr (s : string).

(** *** parseFloat *)

Definition is_digit (c : ascii) : bool :=
  let n := nat_of_ascii c in ((48 <=? n) && (n <=? 57))%nat.

Definition digit_value (c : ascii) : Z := Z.of_nat (nat_of_ascii c) - 48.

(** The leading DecimalDigits of [s]: their value on top of [acc], how many
    there are on top of [n], and the rest of the string. *)
Fixpoint digits (s : string) (acc : Z) (n : Z) : Z * Z * string :=
  match s with
  | String c s' =>
      if is_digit c then digits s' (10 * acc + digit_value c)%Z (n + 1)%Z
      else (acc, n, s)
  | EmptyString => (acc, n, s)
  end.

(** The ExponentPart at the head of [s], 0 when there is none; an [e] that no
    digit follows is not part of the literal. *)
Definition exponent (s : string) : Z :=
  match s with
  | String c s1 =>
      if (Ascii.eqb c "e" || Ascii.eqb c "E")%bool then
        let '(neg, s2) :=
          match s1 with
          | String "-"%char r => (true, r)
          | String "+"%char r => (false, r)
          | _ => (false, s1)
          end in
        let '(v, n, _) := digits s2 0%Z 0%Z in
        if (n =? 0)%Z then 0%Z else if neg then (- v)%Z else v
      else 0%Z
  | EmptyString => 0%Z
  end.

(** The Number value of [(-1)^neg * m * 10^k], rounded to nearest, ties to
    even: the quotient of two integers, rounded once. *)
Definition decimal (neg : bool) (m k : Z) : number :=
  match (m * 10 ^ Z.max k 0)%Z, (10 ^ Z.max (- k) 0)%Z with
  | Zpos num, Zpos den =>
      SF2Prim (SFdiv prec emax (S754_finite neg num 0) (S754_finite false den 0))
  | _, _ => if neg then neg_zero else zero
  end.

(** [parseFloat] on a String (ECMA-262, 19.2.4): leading white space is
    skipped, the longest prefix that is a StrDecimalLiteral is read, and
    [NaN] is the result when there is none. *)
Definition parseFloat_string (s : string) : number :=
  let s1 := trimStart s in
  let '(neg, s2) :=
    match s1 with
    | String "-"%char r => (true, r)
    | String "+"%char r => (false, r)
    | _ => (false, s1)
    end in
  if String.prefix "Infinity" s2 then (if neg then neg_infinity else infinity)
  else
    let '(i, ni, s3) := digits s2 0%Z 0%Z in
    let '(m, nf, s4) :=
      match s3 with
      | String "."%char r => digits r i 0%Z
      | _ => (i, 0%Z, s3)
      end in
    if (ni + nf =? 0)%Z then nan
    else decimal neg m (exponent s4 - nf).

(** [parseFloat] applies ToString to its argument first.  A Number prints as
    the shortest decimal that reads back as itself, [-0] as ["0"]; [undefined],
    [null] and the Booleans print as words that start no literal. *)
Definition parseFloat (v : value) : number :=
  match v with
  | VStr s => parseFloat_string s
  | VNum x => if is_zero x then 0%float else x
  | VUndefined | VNull | VBool _ => nan
  end.

(** *** Number.prototype.toLocaleString

    Without arguments the host's default locale formats the number; the model
    is the [en-US] format (ECMA-402, with the defaults of the decimal style)
    of the exact value of the number: an ASCII minus for a negative value,
    [-0] included, the integer digits in groups of three, and at most three
    fraction digits, rounded half away from zero, trailing zeros dropped.
    The component's signed display formats the result of [Math.round], an
    integer, which has no fraction digits to round. *)

Definition digits_of_N (n : N) : list ascii :=
  list_ascii_of_string (NilZero.string_of_uint (N.to_uint n)).

(** A comma before every fourth digit, on the digits from the least
    significant one. *)
Fixpoint group3 (rev_digits : list ascii) (k : nat) : list ascii :=
  match rev_digits with
  | [] => []
  | c :: rest =>
      if Nat.eqb k 3 then ","%char :: c :: group3 rest 1
      else c :: group3 rest (S k)
  end.

Definition grouped (n : N) : string :=
  string_of_list_ascii (rev (group3 (rev (digits_of_N n)) 0)).

Fixpoint drop_zeros (rev_digits : list ascii) : list ascii :=
  match rev_digits with
  | "0"%char :: rest => drop_zeros rest
  | _ => rev_digits
  end.

Definition fraction (thousandths : N) : string :=
  let ds := digits_of_N thousandths in
  let padded := (repeat "0"%char (3 - List.length ds) ++ ds)%list in
  match rev (drop_zeros (rev padded)) with
  | [] => ""
  | fs => String "."%char (string_of_list_ascii fs)
  end.

(** U+221E, written in UTF-8. *)
Definition infinity_sign : string :=
  String (ascii_of_nat 226) (String (ascii_of_nat 136) (String (ascii_of_nat 158) "")).

Definition minus (s : bool) : string := if s then "-" else "".

Definition toLocaleString (x : number) : string :=
  match Prim2SF x with
  | S754_nan => "NaN"
  | S754_infinity s => minus s ++ infinity_sign
  | S754_zero s => minus s ++ "0"
  | S754_finite s m e =>
      let t := (if 0 <=? e then Z.pos m * 2 ^ e * 1000
                else (2 * (Z.pos m * 1000) + 2 ^ (- e)) / (2 * 2 ^ (- e)))%Z in
      minus s ++ grouped (Z.to_N (t / 1000)) ++ fraction (Z.to_N (t mod 1000))
  end.

(** *** JSON

    What [JSON.stringify] writes for a value held in a property, and what
    [JSON.parse] reads back.  A number literal is identified with the Number
    it denotes. *)
Inductive json : Type :=
| Jnull
| Jbool (b : bool)
| Jnumber (x : number)
| Jstring (s : string).

(** SerializeJSONProperty (ECMA-262, 25.5.2.2): a property holding
    [undefined] is left out ([None]); a Number that is not finite is written
    [null]; [-0] is written [0]. *)
Definition JSON_stringify_value (v : value) : option json :=
  match v with
  | VUndefined => None
  | VNull => Some Jnull
  | VBool b => Some (Jbool b)
  | VNum x =>
      Some (if is_finite x then Jnumber (if is_zero x then 0%float else x)
            else Jnull)
  | VStr s => Some (Jstring s)
  end.

(** Reading a property of a parsed object; a property the text does not have
    reads as [undefined]. *)
Definition JSON_parse_value (j : option json) : value :=
  match j with
  | None => VUndefined
  | Some Jnull => VNull
  | Some (Jbool b) => VBool b
  | Some (Jnumber x) => VNum x
  | Some (Jstring s) => VStr s
  end.

(** *** Date

    A Date is its time value: milliseconds since the epoch, UTC (ECMA-262,
    21.4.1).  The time values of this development are within the range of
    Dates, where [TimeClip] is the identity. *)

Local Open Scope Z_scope.

Definition msPerDay : Z := 86400000.

Definition Day (t : Z) : Z := t / msPerDay.
Definition TimeWithinDay (t : Z) : Z := t mod msPerDay.

Definition DaysInYear (y : Z) : Z :=
  if negb (y mod 4 =? 0) then 365
  else if negb (y mod 100 =? 0) then 366
  else if negb (y mod 400 =? 0) then 365
  else 366.

Definition DayFromYear (y : Z) : Z :=
  365 * (y - 1970) + (y - 1969) / 4 - (y - 1901) / 100 + (y - 1601) / 400.

(** YearFromTime (21.4.1.8) on a day number: the largest year that starts on
    or before day [d].  The estimate from the mean length of a year is at
    most one year off ([YearFromDay_spec] below). *)
Definition YearFromDay (d : Z) : Z :=
  let y := 1970 + (400 * d) / 146097 in
  if d <? DayFromYear y then y - 1
  else if DayFromYear (y + 1) <=? d then y + 1
  else y.

Definition YearFromTime (t : Z) : Z := YearFromDay (Day t).

Definition InLeapYear (t : Z) : Z :=
  if DaysInYear (YearFromTime t) =? 366 then 1 else 0.

Definition DayWithinYear (t : Z) : Z := Day t - DayFromYear (YearFromTime t).

(** The day of the year on which month [m] (0 = January) starts. *)
Definition month_start (leap m : Z) : Z :=
  match m with
  | 0 => 0
  | 1 => 31
  | 2 => 59 + leap
  | 3 => 90 + leap
  | 4 => 120 + leap
  | 5 => 151 + leap
  | 6 => 181 + leap
  | 7 => 212 + leap
  | 8 => 243 + leap
  | 9 => 273 + leap
  | 10 => 304 + leap
  | _ => 334 + leap
  end.

Definition MonthFromTime (t : Z) : Z :=
  let d := DayWithinYear t in
  let leap := InLeapYear t in
  if d <? 31 then 0
  else if d <? 59 + leap then 1
  else if d <? 90 + leap then 2
  else if d <? 120 + leap then 3
  else if d <? 151 + leap then 4
  else if d <? 181 + leap then 5
  else if d <? 212 + leap then 6
  else if d <? 243 + leap then 7
  else if d <? 273 + leap then 8
  else if d <? 304 + leap then 9
  else if d <? 334 + leap then 10
  else 11.

Definition DateFromTime (t : Z) : Z :=
  DayWithinYear t - month_start (InLeapYear t) (MonthFromTime t) + 1.

(** MakeDay (21.4.1.28): the day number of the first of the month, months
    past December carried into the year, plus the date. *)
Definition MakeDay (year month date : Z) : Z :=
  let ym := year + month / 12 in
  let mn := month mod 12 in
  DayFromYear ym + month_start (if DaysInYear ym =? 366 then 1 else 0) mn
  + date - 1.

Definition MakeDate (day time : Z) : Z := day * msPerDay + time.

Section Zone.

(** The host's time zone is its local time zone adjustment (21.4.1.7):
    [LocalTZA t true] is the offset of local time from UTC, in milliseconds,
    at the instant [t], and [LocalTZA t false] the offset at the local time
    [t].  The offset changes where the zone changes its rule, as at both ends
    of daylight saving time; a local time that a transition skips or repeats
    is read with the offset before the transition. *)
Variable LocalTZA : Z -> bool -> Z.

Definition LocalTime (t : Z) : Z := t + LocalTZA t true.
Definition UTC (t : Z) : Z := t - LocalTZA t false.

Definition getFullYear (t : Z) : Z := YearFromTime (LocalTime t).
Definition getMonth (t : Z) : Z := MonthFromTime (LocalTime t).

(** [Date.prototype.setMonth(month)] (21.4.4.25): the date of the month and
    the time within the day are kept, in local time. *)
Definition setMonth (t month : Z) : Z :=
  let l := LocalTime t in
  UTC (MakeDate (MakeDay (YearFromTime l) month (DateFromTime l))
                (TimeWithinDay l)).

End Zone.

Definition month_name (m : Z) : string :=
  match m with
  | 0 => "Jan" | 1 => "Feb" | 2 => "Mar" | 3 => "Apr"
  | 4 => "May" | 5 => "Jun" | 6 => "Jul" | 7 => "Aug"
  | 8 => "Sep" | 9 => "Oct" | 10 => "Nov" | _ => "Dec"
  end.

Definition two_digits (n : Z) : string :=
  let ds := NilZero.string_of_uint (N.to_uint (Z.to_N (n mod 100))) in
  if (n mod 100 <? 10) then "0" ++ ds else ds.

(** [toLocaleDateString('en-US', { month: 'short', year: '2-digit' })] *)
Definition toLocaleDateString (LocalTZA : Z -> bool -> Z) (t : Z) : string :=
  month_name (getMonth LocalTZA t) ++ " " ++ two_digits (getFullYear LocalTZA t).

End JS.

(* ================================================================== *)
(** ** The component                                                   *)
(* ================================================================== *)

Module App.
Import JS.

Local Open Scope float_scope.

Definition INITIAL_INVESTMENT : number := 10000.

(** ['2023-01-03'], as [new Date] reads it: a date-only form is midnight UTC. *)
Definition START_DATE : Z := MakeDate (MakeDay 2023 0 3) 0.

Definition GOOGLE_START_PRICE : number := 89.83.

Definition BTC_INVESTMENT : number := 1000.

Definition BTC_PRICE_AUG_2025 : number := 117384.44.

(** *** Ventures *)

(** A venture object.  Its [id] is an integer: 1 to 8 in the seed,
    [Date.now()] on a venture the user adds.  [isBitcoin] is [None] on an
    object without the property. *)
Record Venture : Type := {
  id : Z;
  name : string;
  revenue : value;
  expenses : string;
  isBitcoin : option bool
}.

(** [v.isBitcoin] where the source tests it. *)
Definition is_bitcoin (v : Venture) : bool :=
  match isBitcoin v with
  | Some true => true
  | _ => false
  end.

Definition bitcoin_venture : Venture :=
  {| id := 8; name := "Bitcoin Investor"; revenue := VNum 0;
     expenses := "$1,000"; isBitcoin := Some true |}.

Definition initialVentures : list Venture :=
  [ {| id := 1; name := "Rarely open coffee cart"; revenue := VNum 0;
       expenses := "Time wasted"; isBitcoin := None |};
    {| id := 2; name := "Questionably exploitative house cleaning service";
       revenue := VNum 0; expenses := "Online training course";
       isBitcoin := None |};
    {| id := 3; name := "Vague restaurant/food cart"; revenue := VNum 0;
       expenses := "Time wasted"; isBitcoin := None |};
    {| id := 4; name := "PYOP + Kiln"; revenue := VNum 0;
       expenses := "$100"; isBitcoin := None |};
    {| id := 5; name := "CRE Cleaning Franchise (also maybe exploitative)";
       revenue := VNum 0; expenses := "Time wasted"; isBitcoin := None |};
    {| id := 6; name := "Alarm and security company"; revenue := VNum 0;
       expenses := "Time wasted"; isBitcoin := None |};
    {| id := 7; name := "Wilmington-based landscaping"; revenue := VNum 0;
       expenses := "Time wasted"; isBitcoin := None |};
    {| id := 8; name := "Bitcoin Investor"; revenue := VNum 0;
       expenses := "$1,000"; isBitcoin := Some true |} ].

(** *** The store: [localStorage] under ['alexVentures_v2'] *)

(** A venture as the stored text holds it. *)
Record stored_venture : Type := {
  s_id : Z;
  s_name : string;
  s_revenue : option json;
  s_expenses : string;
  s_isBitcoin : option bool
}.

(** The stored text: a JSON array of venture objects.  (On any other text
    [JSON.parse] or [find] throws and the component does not render; such
    text is outside the model.) *)
Definition document := list stored_venture.

Definition JSON_stringify (ventures : list Venture) : document :=
  map (fun v =>
         {| s_id := id v; s_name := name v;
            s_revenue := JSON_stringify_value (revenue v);
            s_expenses := expenses v; s_isBitcoin := isBitcoin v |})
      ventures.

Definition JSON_parse (text : document) : list Venture :=
  map (fun o =>
         {| id := s_id o; name := s_name o;
            revenue := JSON_parse_value (s_revenue o);
            expenses := s_expenses o; isBitcoin := s_isBitcoin o |})
      text.

(** The initializer of the [ventures] state (lines 27-38); [saved] is what
    [localStorage.getItem] returned, [None] for [null]. *)
Definition load (saved : option document) : list Venture :=
  match saved with
  | Some text =>
      let parsed := JSON_parse text in
      (* Ensure Bitcoin venture exists *)
      match find is_bitcoin parsed with
      | None => parsed ++ [bitcoin_venture]
      | Some _ => parsed
      end
  | None => initialVentures
  end.

(** The effect on [ventures] (lines 49-51): what [setItem] leaves in the
    store. *)
Definition save (ventures : list Venture) : option document :=
  Some (JSON_stringify ventures).

(** *** State *)

(** A point of the equity history. *)
Record point : Type := {
  date : string;
  fullDate : Z;
  stockValue : option number;
  alexRevenue : number
}.

Record Form : Type := {
  form_name : string;
  form_revenue : value;
  form_expenses : string
}.

Record State : Type := {
  ventures : list Venture;
  googlePrice : option number;
  bitcoinPrice : option number;
  bitcoinValue : option number;
  googleHistory : list point;
  loading : bool;
  error : option string;
  showAddForm : bool;
  newVenture : Form
}.

Definition setVentures (next : list Venture) (st : State) : State :=
  {| ventures := next; googlePrice := googlePrice st;
     bitcoinPrice := bitcoinPrice st; bitcoinValue := bitcoinValue st;
     googleHistory := googleHistory st; loading := loading st;
     error := error st; showAddForm := showAddForm st;
     newVenture := newVenture st |}.

Definition setBitcoin (price value : number) (st : State) : State :=
  {| ventures := ventures st; googlePrice := googlePrice st;
     bitcoinPrice := Some price; bitcoinValue := Some value;
     googleHistory := googleHistory st; loading := loading st;
     error := error st; showAddForm := showAddForm st;
     newVenture := newVenture st |}.

Definition setGoogle (price : option number) (history : list point)
    (busy : bool) (err : option string) (st : State) : State :=
  {| ventures := ventures st; googlePrice := price;
     bitcoinPrice := bitcoinPrice st; bitcoinValue := bitcoinValue st;
     googleHistory := history; loading := busy;
     error := err; showAddForm := showAddForm st;
     newVenture := newVenture st |}.

Definition setForm (shown : bool) (form : Form) (st : State) : State :=
  {| ventures := ventures st; googlePrice := googlePrice st;
     bitcoinPrice := bitcoinPrice st; bitcoinValue := bitcoinValue st;
     googleHistory := googleHistory st; loading := loading st;
     error := error st; showAddForm := shown; newVenture := form |}.

(** The state of the first render (lines 27-46). *)
Definition init (saved : option document) : State :=
  {| ventures := load saved; googlePrice := None; bitcoinPrice := None;
     bitcoinValue := None; googleHistory := []; loading := true;
     error := None; showAddForm := false;
     newVenture := {| form_name := ""; form_revenue := VNum 0;
                      form_expenses := "" |} |}.

(** *** The reconciler *)

(** Update Bitcoin venture when price changes (lines 60-66). *)
Definition update_bitcoin_venture (st : State) : State :=
  match bitcoinValue st with
  | Some value =>
      setVentures
        (map (fun v =>
                if is_bitcoin v then
                  {| id := id v; name := name v;
                     revenue := VNum (Math_round (value - BTC_INVESTMENT));
                     expenses := expenses v; isBitcoin := isBitcoin v |}
                else v)
             (ventures st))
        st
  | None => st
  end.

(** [fetchBitcoinPrice] (lines 68-92); [response] is the spot price of a
    successful answer, [None] when the request or its reading threw. *)
Definition fetchBitcoinPrice (response : option number) (st : State) : State :=
  match response with
  | Some currentPrice =>
      let btcAmount := BTC_INVESTMENT / BTC_PRICE_AUG_2025 in
      setBitcoin currentPrice (btcAmount * currentPrice) st
  | None =>
      let estimatedPrice := 105000 in
      let btcAmount := BTC_INVESTMENT / BTC_PRICE_AUG_2025 in
      setBitcoin estimatedPrice (btcAmount * estimatedPrice) st
  end.

(** Lines 203-209. *)
Definition totalRevenue (st : State) : number :=
  fold_left
    (fun sum v =>
       if is_bitcoin v then sum + or_zero (parseFloat (revenue v))
       else sum + or_zero (parseFloat (revenue v)))
    (ventures st) 0.

Definition shares : number := INITIAL_INVESTMENT / GOOGLE_START_PRICE.

Definition currentStockValue (st : State) : option number :=
  match googlePrice st with
  | Some price => if truthy price then Some (Math_round (shares * price)) else None
  | None => None
  end.

Definition stockGain (st : State) : option number :=
  match currentStockValue st with
  | Some v => if truthy v then Some (v - INITIAL_INVESTMENT) else None
  | None => None
  end.

(** Format Bitcoin revenue for display (lines 216-222). *)
Definition getBitcoinRevenueDisplay (st : State) (venture : Venture) : string :=
  if negb (is_bitcoin venture) then
    "$" ++ toLocaleString (or_zero (parseFloat (revenue venture)))
  else
    match bitcoinValue st with
    | None => "..."
    | Some value =>
        let profit := Math_round (value - BTC_INVESTMENT) in
        let prefix := if 0 <=? profit then "+" else "" in
        prefix ++ "$" ++ toLocaleString profit
    end.

Definition isEntrepreneur (st : State) : bool := 0 <? totalRevenue st.

(** *** Adding and deleting *)

(** [addVenture] (lines 224-234); [now] is what [Date.now()] returns. *)
Definition addVenture (now : Z) (st : State) : State :=
  let form := newVenture st in
  if negb (truthy_string (trim (form_name form))) then st
  else
    setForm false
      {| form_name := ""; form_revenue := VNum 0; form_expenses := "" |}
      (setVentures
         (ventures st ++
          [ {| id := now;
               name := form_name form;
               revenue := VNum (or_zero (parseFloat (form_revenue form)));
               expenses := if truthy_string (form_expenses form)
                           then form_expenses form else "Time wasted";
               isBitcoin := None |} ])%list
         st).

(** [deleteVenture] (lines 236-238). *)
Definition deleteVenture (i : Z) (st : State) : State :=
  setVentures (filter (fun v => negb (id v =? i)%Z) (ventures st)) st.

(** The table's delete buttons (lines 374-378): a row renders one unless its
    venture is the Bitcoin one, and a click calls [deleteVenture] with the
    row's id.  These are the ids the rendered buttons pass. *)
Definition delete_buttons (st : State) : list Z :=
  flat_map (fun venture => if negb (is_bitcoin venture) then [id venture] else [])
           (ventures st).

(** *** The equity fetcher *)

(** The [stockData] the history is built from: the timestamps (unix seconds)
    and the parallel close prices, [None] for a [null] one. *)
Record payload : Type := {
  timestamps : list Z;
  prices : list (option number)
}.

(** What a request gives ([fetchFromYahoo], lines 99-115, and
    [fetchViaProxy], lines 118-134).  It throws when the request fails, the
    response is not ok, or the body has no [chart.result[0]] with an
    [indicators.quote[0]] to read.  Otherwise it returns what it finds under
    [timestamp] and [close] there, unchecked: each is [None] when the body
    does not have the property ([undefined]) or has [null] there.  The model
    carries the bodies in which [timestamp], where present, is an array of
    integers and [close], where present, an array of numbers and [null]s. *)
Inductive answer : Type :=
| Threw
| Returned (timestamp : option (list Z))
           (close : option (list (option number))).

(** The answer the history is built from (lines 137-143): the proxy is asked
    only when the direct request threw. *)
Definition stockData (yahoo proxy : answer) : answer :=
  match yahoo with
  | Threw => proxy
  | Returned _ _ => yahoo
  end.

(** [Array.prototype.map] with the index its callback receives. *)
Fixpoint map_indexed {A B : Type} (f : A -> nat -> B) (l : list A) (i : nat)
  : list B :=
  match l with
  | [] => []
  | a :: l' => f a i :: map_indexed f l' (S i)
  end.

Section Fetcher.

(** [Math.pow] is implementation-approximated (ECMA-262, 21.3.2.26): the
    host's function is a parameter. *)
Variable Math_pow : number -> number -> number.

(** The host's local time zone. *)
Variable LocalTZA : Z -> bool -> Z.

(** The callback of [timestamps.map] (lines 148-160); [prices[i]] past the
    end of [prices] is [undefined]. *)
Definition history_point (prices : list (option number)) (ts : Z) (i : nat)
  : point :=
  let date := (ts * 1000)%Z in
  let price := nth i prices None in
  let shares := INITIAL_INVESTMENT / GOOGLE_START_PRICE in
  let stockValue :=
    match price with
    | Some p => if truthy p then Some (shares * p) else None
    | None => None
    end in
  {| date := toLocaleDateString LocalTZA date;
     fullDate := date;
     stockValue := match stockValue with
                   | Some v => if truthy v then Some (Math_round v) else None
                   | None => None
                   end;
     alexRevenue := 0 |}.

(** Build historical data (lines 148-160). *)
Definition build_history (stockData : payload) : list point :=
  filter (fun d => match stockValue d with Some _ => true | None => false end)
         (map_indexed (history_point (prices stockData))
                      (timestamps stockData) 0).

(** The [while] loop of the fallback (lines 180-195), [fuel] bounding its
    iterations: [None] when the bound is reached before the loop ends. *)
Fixpoint fallback_months (fuel : nat) (startDateObj now current : Z)
    (months : list point) : option (list point) :=
  match fuel with
  | O => None
  | S fuel' =>
      if (current <=? now)%Z then
        let monthsElapsed :=
          ((getFullYear LocalTZA current - getFullYear LocalTZA startDateObj) * 12
           + (getMonth LocalTZA current - getMonth LocalTZA startDateObj))%Z in
        let growthFactor := Math_pow 1.027 (number_of_Z monthsElapsed) in
        let stockValue := Math_round (INITIAL_INVESTMENT * growthFactor) in
        fallback_months fuel' startDateObj now
          (setMonth LocalTZA current (getMonth LocalTZA current + 1))
          (months ++
           [ {| date := toLocaleDateString LocalTZA current;
                fullDate := current;
                stockValue := Some stockValue;
                alexRevenue := 0 |} ])%list
      else Some months
  end.

(** The [catch] of the outer [try] (lines 165-199); [now] is the clock when
    it runs. *)
Definition fallback (fuel : nat) (now : Z) (st : State) : option State :=
  match fallback_months fuel START_DATE now START_DATE [] with
  | Some months =>
      Some (setGoogle (Some 197) months false
              (Some "Could not fetch live data. Using estimated values.")
              st)
  | None => None
  end.

(** [fetchGoogleStock] (lines 94-200).  [yahoo] and [proxy] are what the two
    requests give.  The outer [try] (lines 136-165) catches what either
    request throws and also what the building of the history throws:
    [timestamps.map] on a missing [timestamps], and [prices[i]] or
    [prices.length] on a missing [prices] (with no timestamp at all the
    empty history is set first, and the [catch] then replaces it).  In each
    of these cases the fallback runs. *)
Definition fetchGoogleStock (fuel : nat) (yahoo proxy : answer)
    (now : Z) (st : State) : option State :=
  match stockData yahoo proxy with
  | Returned (Some timestamps) (Some prices) =>
      let d := {| timestamps := timestamps; prices := prices |} in
      Some (setGoogle (last prices None) (build_history d) false None st)
  | Returned (Some _) None => fallback fuel now st
  | Returned None _ => fallback fuel now st
  | Threw => fallback fuel now st
  end.

End Fetcher.

End App.

(* ================================================================== *)
(** ** The events of the component                                     *)
(* ================================================================== *)

Module Presenter.
Import JS App.

(** What can happen to the rendered component: the clicks and keystrokes its
    JSX binds handlers to, and the two requests of the mount effect settling.
    [ClickDelete row] is a click on the delete button of the [row]-th line of
    the table; [ClickAdd now] is a click on "Add Venture" when the clock
    reads [now]. *)
Inductive event : Type :=
| ToggleForm
| ChangeName (typed : string)
| ChangeRevenue (typed : string)
| ChangeExpenses (typed : string)
| ClickAdd (now : Z)
| ClickCancel
| ClickDelete (row : nat)
| BitcoinSettled (response : option number)
| GoogleSettled (yahoo proxy : answer) (now : Z).

Section Handlers.

Variable Math_pow : number -> number -> number.
Variable LocalTZA : Z -> bool -> Z.

(** The handler of an event, and the effects its state change sets off.  The
    form (lines 325-350) is rendered only while [showAddForm] holds and a row
    has a delete button only when its venture is not the Bitcoin one (lines
    374-378): an event on an element that is not rendered changes nothing.
    When the Bitcoin request settles, [bitcoinValue] changes and the effect
    of lines 60-66 runs.  [None] when the fallback loop runs out of [fuel]. *)
Definition handle (fuel : nat) (e : event) (st : State) : option State :=
  match e with
  | ToggleForm =>
      Some (setForm (negb (showAddForm st)) (newVenture st) st)
  | ChangeName typed =>
      if showAddForm st then
        Some (setForm (showAddForm st)
                {| form_name := typed;
                   form_revenue := form_revenue (newVenture st);
                   form_expenses := form_expenses (newVenture st) |} st)
      else Some st
  | ChangeRevenue typed =>
      if showAddForm st then
        Some (setForm (showAddForm st)
                {| form_name := form_name (newVenture st);
                   form_revenue := VStr typed;
                   form_expenses := form_expenses (newVenture st) |} st)
      else Some st
  | ChangeExpenses typed =>
      if showAddForm st then
        Some (setForm (showAddForm st)
                {| form_name := form_name (newVenture st);
                   form_revenue := form_revenue (newVenture st);
                   form_expenses := typed |} st)
      else Some st
  | ClickAdd now =>
      if showAddForm st then Some (addVenture now st) else Some st
  | ClickCancel =>
      if showAddForm st then Some (setForm false (newVenture st) st)
      else Some st
  | ClickDelete row =>
      match nth_error (ventures st) row with
      | Some venture =>
          if negb (is_bitcoin venture) then Some (deleteVenture (id venture) st)
          else Some st
      | None => Some st
      end
  | BitcoinSettled response =>
      Some (update_bitcoin_venture (fetchBitcoinPrice response st))
  | GoogleSettled yahoo proxy now =>
      fetchGoogleStock Math_pow LocalTZA fuel yahoo proxy now st
  end.

(** The state after a sequence of events. *)
Fixpoint run (fuel : nat) (events : list event) (st : State) : option State :=
  match events with
  | [] => Some st
  | e :: rest =>
      match handle fuel e st with
      | Some st' => run fuel rest st'
      | None => None
      end
  end.

(** Every "Add Venture" click of the sequence reads a clock value that is the
    id of no venture of the list at that moment. *)
Fixpoint fresh_clocks (fuel : nat) (events : list event) (st : State) : Prop :=
  match events with
  | [] => True
  | e :: rest =>
      match e with
      | ClickAdd now => ~ In now (map id (ventures st))
      | _ => True
      end
      /\ match handle fuel e st with
         | Some st' => fresh_clocks fuel rest st'
         | None => True
         end
  end.

End Handlers.

End Presenter.

(* ================================================================== *)
(** ** Vocabulary of the properties                                    *)
(* ================================================================== *)

Import JS App.
Open Scope list_scope.

(** A stored list without a Bitcoin venture: two ventures of the seed and one
    the user added. *)
Definition legacy_document : document :=
  [ {| s_id := 1; s_name := "Rarely open coffee cart";
       s_revenue := Some (Jnumber 0); s_expenses := "Time wasted";
       s_isBitcoin := None |};
    {| s_id := 4; s_name := "PYOP + Kiln";
       s_revenue := Some (Jnumber 0); s_expenses := "$100";
       s_isBitcoin := None |};
    {| s_id := 1700000000000; s_name := "Artisanal Pickle Stand";
       s_revenue := Some (Jnumber 12.5); s_expenses := "$50";
       s_isBitcoin := Some false |} ].

(** The number literals [JSON.stringify] can write: finite, and zero only as
    [0]. *)
Definition canonical_json (j : option json) : Prop :=
  match j with
  | Some (Jnumber x) =>
      is_finite x = true /\ (is_zero x = true -> x = 0%float)
  | _ => True
  end.

Definition canonical (text : document) : Prop :=
  forall o, In o text -> canonical_json (s_revenue o).

(** The numeric value of a [revenue] field: what [parseFloat] reads in it,
    and 0 where that is [NaN] (or a zero of either sign). *)
Definition revenue_value (r : value) : number :=
  let p := parseFloat r in
  if (is_nan p || is_zero p)%bool then 0%float else p.

(** The sum of a list of numbers, accumulated from 0 in the order of the
    list. *)
Definition sum (l : list number) : number := fold_left PrimFloat.add l 0%float.

(** The indices of the payload that the history keeps: those with a price
    that is a number other than [NaN] and zero, and a position worth a
    nonzero amount. *)
Definition priced (prices : list (option number)) (i : nat) : bool :=
  match nth i prices None with
  | Some p => (truthy p && truthy (INITIAL_INVESTMENT / GOOGLE_START_PRICE * p))%bool
  | None => false
  end.

Definition kept_indices (d : payload) : list nat :=
  filter (priced (prices d)) (seq 0 (List.length (timestamps d))).

(** A zone that keeps one offset from UTC. *)
Definition fixed_zone (offset : Z) : Z -> bool -> Z := fun _ _ => offset.

(** A zone with daylight saving time, that of New York in 2023: five hours
    behind UTC, and four from 12 March, 2:00 local time (7:00 UTC), to
    5 November, 2:00 local time (6:00 UTC).  The hour the spring transition
    skips and the hour the autumn transition repeats are read with the offset
    before the transition.  (The sample keeps the one period of daylight
    saving time.) *)
Definition new_york_2023 (t : Z) (isUTC : bool) : Z :=
  if isUTC then
    if (1678604400000 <=? t)%Z && (t <? 1699164000000)%Z
    then (-14400000)%Z else (-18000000)%Z
  else
    if (1678590000000 <=? t)%Z && (t <? 1699149600000)%Z
    then (-14400000)%Z else (-18000000)%Z.

(** An answer with both arrays. *)
Definition returned (d : payload) : answer :=
  Returned (Some (timestamps d)) (Some (prices d)).

(** The [k]-th date of the fallback loop: the start date, moved [k] times by
    [setMonth] to the month after its own. *)
Fixpoint month_date (LocalTZA : Z -> bool -> Z) (k : nat) : Z :=
  match k with
  | O => START_DATE
  | S k' =>
      setMonth LocalTZA (month_date LocalTZA k')
        (getMonth LocalTZA (month_date LocalTZA k') + 1)
  end.

(** The calendar months from the start date to the date [t], in local time. *)
Definition months_between (LocalTZA : Z -> bool -> Z) (t : Z) : Z :=
  (getFullYear LocalTZA t - getFullYear LocalTZA START_DATE) * 12
  + (getMonth LocalTZA t - getMonth LocalTZA START_DATE).

(** The [k]-th point of the synthetic series: the initial investment
    compounded at 2.7% a month over the calendar months from the start date
    to the point's date. *)
Definition fallback_point (Math_pow : number -> number -> number)
    (LocalTZA : Z -> bool -> Z) (k : nat) : point :=
  {| date := toLocaleDateString LocalTZA (month_date LocalTZA k);
     fullDate := month_date LocalTZA k;
     stockValue :=
       Some (Math_round
               (INITIAL_INVESTMENT
                * Math_pow 1.027%float
                    (number_of_Z (months_between LocalTZA (month_date LocalTZA k)))));
     alexRevenue := 0 |}.

Definition fallback_series (Math_pow : number -> number -> number)
    (LocalTZA : Z -> bool -> Z) (n : nat) : list point :=
  map (fallback_point Math_pow LocalTZA) (seq 0 n).

(** The local time [k] months after the start date's: its day of the month
    and time of day, in the [k]-th month after its month. *)
Definition local_month (LocalTZA : Z -> bool -> Z) (k : Z) : Z :=
  let l := LocalTime LocalTZA START_DATE in
  MakeDate (MakeDay (YearFromTime l) (MonthFromTime l + k) (DateFromTime l))
           (TimeWithinDay l).

(** No transition of the zone skips one of these local times: each is the
    local time of the instant it is read as. *)
Definition unskipped (LocalTZA : Z -> bool -> Z) : Prop :=
  forall k : nat,
    LocalTime LocalTZA (UTC LocalTZA (local_month LocalTZA (Z.of_nat k)))
    = local_month LocalTZA (Z.of_nat k).

(** A [Math.pow] for natural exponents, by repeated multiplication. *)
Definition pow_by_products (b e : number) : number :=
  match Prim2SF e with
  | S754_finite false m x =>
      Z.iter (if (0 <=? x)%Z then Z.pos m * 2 ^ x else Z.pos m / 2 ^ (- x))%Z
             (fun y => (y * b)%float) 1%float
  | _ => 1%float
  end.

(** A payload of four months, the second without a price. *)
Definition sample_payload : payload :=
  {| timestamps := [1672704000; 1675382400; 1677801600; 1680480000]%Z;
     prices := [Some 90%float; None; Some 95.5%float; Some 100%float] |}.

(** A revenue that [JSON.stringify] writes and [JSON.parse] reads back as it
    was: anything but a Number that is not finite or is [-0]. *)
Definition storable (r : value) : Prop :=
  match r with
  | VNum x => is_finite x = true /\ (is_zero x = true -> x = 0%float)
  | _ => True
  end.

(** The records of a stored list that carry a true [isBitcoin]. *)
Definition flagged (o : stored_venture) : bool :=
  match s_isBitcoin o with
  | Some true => true
  | _ => false
  end.

(** The state the component starts in when the page is loaded again: the
    store holds what the effect of lines 49-51 last wrote. *)
Definition reload (st : State) : State := init (save (ventures st)).

(** The ids are pairwise distinct and one venture is the Bitcoin one. *)
Definition one_bitcoin (st : State) : Prop :=
  NoDup (map id (ventures st))
  /\ List.length (filter is_bitcoin (ventures st)) = 1%nat.

(** The revenue held by every Bitcoin venture is the profit of the crypto
    snapshot, once there is one. *)
Definition revenue_patched (st : State) : Prop :=
  forall value r,
    bitcoinValue st = Some value ->
    In r (ventures st) -> is_bitcoin r = true ->
    revenue r = VNum (Math_round (value - BTC_INVESTMENT)).

(** A session: the form is opened and filled in, a venture is added, the
    Bitcoin request fails, both equity requests fail, and the first row is
    deleted. *)
Definition sample_session : list Presenter.event :=
  [ Presenter.ToggleForm;
    Presenter.ChangeName "Artisanal Pickle Stand";
    Presenter.ChangeRevenue "12.5";
    Presenter.ClickAdd 1700000000000;
    Presenter.BitcoinSettled None;
    Presenter.GoogleSettled Threw Threw 1680000000000;
    Presenter.ClickDelete 0 ].

(** Closes a comparison of the starts of two consecutive months, once the
    first month is a numeral. *)
Ltac next_month :=
  match goal with
  | |- context [month_start _ (?a + 1)%Z] =>
      let v := eval compute in (a + 1)%Z in change (a + 1)%Z with v
  end;
  cbn [month_start]; lia.

(* ================================================================== *)
(** ** The persisted venture store                                     *)
(* ================================================================== *)

Section Store.

Lemma find_none_filter {A : Type} (f : A -> bool) (l : list A) :
  find f l = None -> filter f l = [].
Proof.
  induction l as [|a l IH]; cbn [find filter]; [reflexivity|].
  destruct (f a); [discriminate | exact IH].
Qed.

Lemma find_app_none {A : Type} (f : A -> bool) (l l' : list A) :
  find f l = None -> find f (l ++ l') = find f l'.
Proof.
  induction l as [|b l IH]; cbn [find app]; [reflexivity|].
  destruct (f b); [discriminate | exact IH].
Qed.

(** A stored list without the flag parses to a list in which [find] finds
    no Bitcoin venture. *)
Lemma find_parse_none (text : document) :
  (forall o, In o text -> s_isBitcoin o <> Some true) ->
  find is_bitcoin (JSON_parse text) = None.
Proof.
  induction text as [|o text IH]; intros H; [reflexivity|].
  cbn [JSON_parse map find].
  replace (is_bitcoin _) with false.
  - apply IH. intros o' Ho'. apply H. now right.
  - unfold is_bitcoin. cbn [isBitcoin].
    specialize (H o (or_introl eq_refl)).
    destruct (s_isBitcoin o) as [[|]|]; congruence.
Qed.

(** C1: for every stored venture list in which no record carries a true
    [isBitcoin], [load] returns the parsed list with the Bitcoin venture
    appended, and that venture (revenue 0, expenses ["$1,000"]) is the only
    one the list holds; with nothing stored, [load] returns the seed, whose
    only Bitcoin venture is the same record. *)
Theorem load_exactly_one_bitcoin :
  (forall text : document,
      (forall o, In o text -> s_isBitcoin o <> Some true) ->
      load (Some text) = JSON_parse text ++ [bitcoin_venture]
      /\ filter is_bitcoin (load (Some text)) = [bitcoin_venture])
  /\ load None = initialVentures
  /\ filter is_bitcoin initialVentures = [bitcoin_venture]
  /\ revenue bitcoin_venture = VNum 0
  /\ expenses bitcoin_venture = "$1,000".
Proof.
  split; [|repeat split].
  intros text H.
  pose proof (find_parse_none text H) as Hfind.
  unfold load. rewrite Hfind. split; [reflexivity|].
  rewrite filter_app, (find_none_filter _ _ Hfind). reflexivity.
Qed.

Lemma load_exactly_one_bitcoin_witness :
  load (Some legacy_document) = JSON_parse legacy_document ++ [bitcoin_venture]
  /\ filter is_bitcoin (load (Some legacy_document)) = [bitcoin_venture].
Proof.
  apply (proj1 load_exactly_one_bitcoin).
  intros o H. simpl in H.
  repeat (destruct H as [<- | H]; [simpl; discriminate|]).
  contradiction.
Defined.

Lemma stringify_parse_value (j : option json) :
  canonical_json j -> JSON_stringify_value (JSON_parse_value j) = j.
Proof.
  destruct j as [[| b | x | s]|];
    cbn [JSON_stringify_value JSON_parse_value canonical_json];
    try reflexivity.
  intros [Hfin Hzero]. rewrite Hfin.
  destruct (is_zero x) eqn:Hz; [rewrite (Hzero eq_refl)|]; reflexivity.
Qed.

Lemma stringify_parse (text : document) :
  canonical text -> JSON_stringify (JSON_parse text) = text.
Proof.
  intros H. unfold JSON_stringify, JSON_parse. rewrite map_map.
  rewrite <- (map_id text) at 2. apply map_ext_in. intros o Ho.
  cbn [id name revenue expenses isBitcoin].
  rewrite stringify_parse_value by apply (H o Ho).
  now destruct o.
Qed.

Lemma canonical_stringify_value (v : value) :
  canonical_json (JSON_stringify_value v).
Proof.
  destruct v as [| | b | x | s];
    cbn [JSON_stringify_value canonical_json]; trivial.
  destruct (is_finite x) eqn:Hfin; cbn [canonical_json]; trivial.
  destruct (is_zero x) eqn:Hz; split; trivial; congruence.
Qed.

Lemma canonical_stringify (l : list Venture) : canonical (JSON_stringify l).
Proof.
  intros o Ho. apply in_map_iff in Ho as (v & <- & _).
  apply canonical_stringify_value.
Qed.

Lemma parse_app (t t' : document) :
  JSON_parse (t ++ t') = JSON_parse t ++ JSON_parse t'.
Proof. apply map_app. Qed.

Lemma stringify_app (l l' : list Venture) :
  JSON_stringify (l ++ l') = JSON_stringify l ++ JSON_stringify l'.
Proof. apply map_app. Qed.

(** A list that survives the round trip and holds a Bitcoin venture is
    loaded as it was saved. *)
Lemma load_save_fixed (l : list Venture) :
  JSON_parse (JSON_stringify l) = l ->
  find is_bitcoin l <> None ->
  load (save l) = l.
Proof.
  intros Hrt Hfind. unfold save, load. rewrite Hrt.
  destruct (find is_bitcoin l); congruence.
Qed.

(** What [load] returns from a stored list holds a Bitcoin venture and
    survives the round trip when the parsed list does. *)
Lemma load_some_fixed (text : document) :
  JSON_parse (JSON_stringify (JSON_parse text)) = JSON_parse text ->
  load (save (load (Some text))) = load (Some text).
Proof.
  intros Hrt. apply load_save_fixed; unfold load.
  - destruct (find is_bitcoin (JSON_parse text)); [exact Hrt|].
    rewrite stringify_app, parse_app, Hrt. reflexivity.
  - destruct (find is_bitcoin (JSON_parse text)) eqn:Hfind.
    + rewrite Hfind. discriminate.
    + rewrite (find_app_none _ _ _ Hfind). discriminate.
Qed.

(** C8: [load] is idempotent.  With nothing stored, and for every list the
    component has saved, loading what [save] writes after a first [load]
    returns the list the first [load] returned; so it does from any stored
    text whose number literals are ones [JSON.stringify] writes. *)
Theorem load_idempotent :
  load (save (load None)) = load None
  /\ (forall saved : list Venture,
         load (save (load (save saved))) = load (save saved))
  /\ (forall text : document,
         canonical text ->
         load (save (load (Some text))) = load (Some text)).
Proof.
  split; [reflexivity|]. split.
  - intros l. apply load_some_fixed.
    now rewrite stringify_parse by apply canonical_stringify.
  - intros text H. apply load_some_fixed.
    now rewrite stringify_parse.
Qed.

Lemma load_idempotent_witness :
  canonical legacy_document
  /\ load (save (load (Some legacy_document))) = load (Some legacy_document).
Proof.
  assert (H : canonical legacy_document).
  { intros o Ho. simpl in Ho.
    repeat (destruct Ho as [<- | Ho]; [simpl; split; [reflexivity|]|]);
      try contradiction; trivial; vm_compute; discriminate. }
  split; [exact H|].
  exact (proj2 (proj2 load_idempotent) legacy_document H).
Defined.

End Store.

(* ================================================================== *)
(** ** The metrics reconciler                                          *)
(* ================================================================== *)

Section Reconciler.

Lemma or_zero_revenue_value (r : value) :
  or_zero (parseFloat r) = revenue_value r.
Proof.
  unfold or_zero, revenue_value, truthy.
  now destruct (is_nan (parseFloat r) || is_zero (parseFloat r))%bool.
Qed.

Lemma fold_revenue (l : list Venture) (acc : number) :
  fold_left
    (fun sum v =>
       if is_bitcoin v then (sum + or_zero (parseFloat (revenue v)))%float
       else (sum + or_zero (parseFloat (revenue v)))%float) l acc
  = fold_left PrimFloat.add (map (fun v => revenue_value (revenue v)) l) acc.
Proof.
  revert acc. induction l as [|v l IH]; intros acc; [reflexivity|].
  cbn [fold_left map]. rewrite <- IH, or_zero_revenue_value.
  now destruct (is_bitcoin v).
Qed.

Lemma sum_zeros (l : list Venture) :
  (forall v, In v l -> revenue v = VNum 0) ->
  fold_left PrimFloat.add (map (fun v => revenue_value (revenue v)) l) 0%float
  = 0%float.
Proof.
  induction l as [|v l IH]; intros H; [reflexivity|].
  cbn [map fold_left]. rewrite (H v (or_introl eq_refl)).
  change (0 + revenue_value (VNum 0))%float with 0%float.
  apply IH. intros v' Hv'. apply H. now right.
Qed.

(** C4: the total revenue is the sum, over the ventures in order, of the
    numeric value of the [revenue] field, the Bitcoin venture counted like
    the others; a revenue in which [parseFloat] reads no number counts 0; and
    when every revenue is 0 the total is 0 and the verdict is the negative
    one. *)
Theorem totalRevenue_is_sum (st : State) :
  totalRevenue st = sum (map (fun v => revenue_value (revenue v)) (ventures st))
  /\ (forall r, is_nan (parseFloat r) = true -> revenue_value r = 0%float)
  /\ ((forall v, In v (ventures st) -> revenue v = VNum 0) ->
      totalRevenue st = 0%float /\ isEntrepreneur st = false).
Proof.
  assert (Hsum : totalRevenue st
                 = sum (map (fun v => revenue_value (revenue v)) (ventures st)))
    by apply fold_revenue.
  split; [exact Hsum|]. split.
  - intros r Hnan. unfold revenue_value. now rewrite Hnan.
  - intros Hzero. unfold isEntrepreneur. rewrite Hsum. unfold sum.
    rewrite (sum_zeros _ Hzero). split; reflexivity.
Qed.

Lemma totalRevenue_is_sum_witness :
  revenue_value (VStr "n/a") = 0%float
  /\ totalRevenue (init None) = 0%float
  /\ isEntrepreneur (init None) = false.
Proof.
  destruct (totalRevenue_is_sum (init None)) as (_ & Hnan & Hzero).
  split; [apply Hnan; reflexivity|].
  apply Hzero. intros v Hv. simpl in Hv.
  repeat (destruct Hv as [<- | Hv]; [reflexivity|]). contradiction.
Defined.

(** The patch maps the list record by record. *)
Lemma update_ventures (st : State) (value : number) :
  bitcoinValue st = Some value ->
  ventures (update_bitcoin_venture st)
  = map (fun v =>
           if is_bitcoin v then
             {| id := id v; name := name v;
                revenue := VNum (Math_round (value - BTC_INVESTMENT));
                expenses := expenses v; isBitcoin := isBitcoin v |}
           else v) (ventures st).
Proof. intros H. unfold update_bitcoin_venture. now rewrite H. Qed.

(** C2, as the code has it: for every crypto snapshot value [v] the patch
    writes [Math.round(v - 1000)] into every Bitcoin venture, and the cell of
    a Bitcoin venture shows that profit after a dollar sign, with a [+] in
    front exactly when the profit is not below zero; the minus sign of a
    negative profit follows the dollar sign.  At 900 the revenue is -100,
    shown as [$-100]; at 1200 it is 200, shown as [+$200]. *)
Theorem bitcoin_revenue_and_display (v : number) (st : State) :
  bitcoinValue st = Some v ->
  (forall r, In r (ventures (update_bitcoin_venture st)) ->
             is_bitcoin r = true ->
             revenue r = VNum (Math_round (v - 1000)))
  /\ (forall r, is_bitcoin r = true ->
                getBitcoinRevenueDisplay st r
                = ((if (0 <=? Math_round (v - 1000))%float then "+" else "")
                   ++ "$" ++ toLocaleString (Math_round (v - 1000)))%string)
  /\ (v = 900%float ->
      Math_round (v - 1000) = (-100)%float
      /\ forall r, is_bitcoin r = true ->
                   getBitcoinRevenueDisplay st r = "$-100")
  /\ (v = 1200%float ->
      Math_round (v - 1000) = 200%float
      /\ forall r, is_bitcoin r = true ->
                   getBitcoinRevenueDisplay st r = "+$200").
Proof.
  intros Hv.
  assert (Hshow : forall r, is_bitcoin r = true ->
            getBitcoinRevenueDisplay st r
            = ((if (0 <=? Math_round (v - 1000))%float then "+" else "")
               ++ "$" ++ toLocaleString (Math_round (v - 1000)))%string).
  { intros r Hr. unfold getBitcoinRevenueDisplay. now rewrite Hr, Hv. }
  split; [|split; [exact Hshow|split]].
  - intros r Hin Hr. rewrite (update_ventures st v Hv) in Hin.
    apply in_map_iff in Hin as (u & <- & _).
    destruct (is_bitcoin u) eqn:Hu; [reflexivity | congruence].
  - intros ->. split; [reflexivity|].
    intros r Hr. rewrite (Hshow r Hr). reflexivity.
  - intros ->. split; [reflexivity|].
    intros r Hr. rewrite (Hshow r Hr). reflexivity.
Qed.

Lemma bitcoin_revenue_and_display_witness :
  getBitcoinRevenueDisplay (setBitcoin 105000 1200 (init None)) bitcoin_venture
  = "+$200"
  /\ map revenue
         (filter is_bitcoin
            (ventures (update_bitcoin_venture (setBitcoin 105000 1200 (init None)))))
     = [VNum 200].
Proof.
  destruct (bitcoin_revenue_and_display 1200 (setBitcoin 105000 1200 (init None))
              eq_refl) as (_ & _ & _ & H).
  destruct (H eq_refl) as [_ Hshow].
  split; [apply Hshow|]; reflexivity.
Defined.

(** C2 as the claim states it fails at 900: the cell reads [$-100], not
    [-$100]. *)
Lemma bitcoin_display_900 :
  getBitcoinRevenueDisplay (setBitcoin 105000 900 (init None)) bitcoin_venture
  = "$-100"
  /\ getBitcoinRevenueDisplay (setBitcoin 105000 900 (init None)) bitcoin_venture
     <> "-$100".
Proof. split; [reflexivity | discriminate]. Qed.

(** C10: the patch is frame-preserving.  The list keeps its length and
    order; a venture without the flag is the same record afterwards; a
    Bitcoin venture keeps its id, name, expenses and flag; and nothing else
    of the state changes. *)
Theorem update_bitcoin_venture_frame (st : State) :
  List.length (ventures (update_bitcoin_venture st)) = List.length (ventures st)
  /\ (forall i v,
         nth_error (ventures st) i = Some v ->
         exists v',
           nth_error (ventures (update_bitcoin_venture st)) i = Some v'
           /\ id v' = id v /\ name v' = name v
           /\ expenses v' = expenses v /\ isBitcoin v' = isBitcoin v
           /\ (is_bitcoin v = false -> v' = v))
  /\ setVentures (ventures st) (update_bitcoin_venture st) = st.
Proof.
  unfold update_bitcoin_venture.
  destruct (bitcoinValue st) as [value|] eqn:Hvalue.
  - cbn [setVentures ventures]. split; [apply length_map|]. split.
    + intros i v Hi. rewrite nth_error_map, Hi. cbn [option_map].
      destruct (is_bitcoin v) eqn:Hv.
      * eexists. split; [reflexivity|]. cbn. repeat split. discriminate.
      * exists v. repeat split.
    + destruct st; reflexivity.
  - split; [reflexivity|]. split.
    + intros i v Hi. exists v. repeat split. exact Hi.
    + destruct st; reflexivity.
Qed.

Lemma update_bitcoin_venture_frame_witness :
  exists v',
    nth_error (ventures (update_bitcoin_venture (setBitcoin 105000 1200 (init None)))) 7
    = Some v'
    /\ id v' = 8%Z /\ name v' = "Bitcoin Investor"
    /\ expenses v' = "$1,000" /\ isBitcoin v' = Some true.
Proof.
  destruct (proj1 (proj2 (update_bitcoin_venture_frame
                            (setBitcoin 105000 1200 (init None))))
              7%nat bitcoin_venture eq_refl)
    as (v' & H1 & H2 & H3 & H4 & H5 & _).
  exists v'. repeat split; assumption.
Defined.

End Reconciler.

(* ================================================================== *)
(** ** Adding and deleting ventures                                    *)
(* ================================================================== *)

Section Editing.

Lemma truthy_string_empty (s : string) :
  truthy_string s = false <-> s = ""%string.
Proof. destruct s; cbn; split; congruence. Qed.

(** C9: with a name that is empty once trimmed, [addVenture] changes nothing,
    the list included; otherwise it appends one record: the clock's value as
    id, the name as typed, the revenue [parseFloat] reads in the input, 0
    in place of [NaN] (and of a zero), and the expenses as typed, ["Time
    wasted"] in place of the empty string. *)
Theorem addVenture_spec (now : Z) (st : State) :
  let form := newVenture st in
  let p := parseFloat (form_revenue form) in
  (trim (form_name form) = ""%string -> addVenture now st = st)
  /\ (trim (form_name form) <> ""%string ->
      ventures (addVenture now st)
      = ventures st ++
        [ {| id := now;
             name := form_name form;
             revenue := VNum (if (is_nan p || is_zero p)%bool then 0%float else p);
             expenses := match form_expenses form with
                         | EmptyString => "Time wasted"
                         | typed => typed
                         end;
             isBitcoin := None |} ]
      /\ List.length (ventures (addVenture now st)) = S (List.length (ventures st))).
Proof.
  intros form p. unfold addVenture. fold form. split.
  - intros Hname. now rewrite (proj2 (truthy_string_empty _) Hname).
  - intros Hname.
    destruct (truthy_string (trim (form_name form))) eqn:Htrim;
      [|now apply truthy_string_empty in Htrim].
    cbn [negb setForm setVentures ventures].
    rewrite or_zero_revenue_value. unfold revenue_value. fold p.
    split.
    + do 3 f_equal. now destruct (form_expenses form).
    + rewrite length_app. cbn [List.length]. lia.
Qed.

Lemma addVenture_spec_witness :
  addVenture 1700000000000
    (setForm true {| form_name := "   "; form_revenue := VStr "5";
                     form_expenses := "" |} (init None))
  = setForm true {| form_name := "   "; form_revenue := VStr "5";
                    form_expenses := "" |} (init None)
  /\ ventures
       (addVenture 1700000000000
          (setForm true {| form_name := " Pickles "; form_revenue := VStr "abc";
                           form_expenses := "" |} (init None)))
     = initialVentures ++
       [ {| id := 1700000000000; name := " Pickles "; revenue := VNum 0;
            expenses := "Time wasted"; isBitcoin := None |} ].
Proof.
  split.
  - apply (proj1 (addVenture_spec 1700000000000
                    (setForm true {| form_name := "   "; form_revenue := VStr "5";
                                     form_expenses := "" |} (init None)))).
    reflexivity.
  - apply (proj2 (addVenture_spec 1700000000000
                    (setForm true {| form_name := " Pickles ";
                                     form_revenue := VStr "abc";
                                     form_expenses := "" |} (init None)))).
    discriminate.
Defined.

Lemma in_deleteVenture (i : Z) (st : State) (v : Venture) :
  In v (ventures (deleteVenture i st)) <-> In v (ventures st) /\ id v <> i.
Proof.
  unfold deleteVenture. cbn [setVentures ventures].
  rewrite filter_In, negb_true_iff, Z.eqb_neq. reflexivity.
Qed.

Lemma in_delete_buttons (i : Z) (st : State) :
  In i (delete_buttons st) <->
  exists v, In v (ventures st) /\ is_bitcoin v = false /\ id v = i.
Proof.
  unfold delete_buttons. rewrite in_flat_map. split.
  - intros (v & Hv & Hi). exists v.
    destruct (is_bitcoin v); cbn in Hi; [contradiction|].
    destruct Hi as [Hi | []]. auto.
  - intros (v & Hv & Hb & Hi). exists v. rewrite Hb. cbn. auto.
Qed.

Lemma NoDup_map_inj {A B : Type} (f : A -> B) (l : list A) (a b : A) :
  NoDup (map f l) -> In a l -> In b l -> f a = f b -> a = b.
Proof.
  induction l as [|c l IH]; cbn [map]; intros Hnd Ha Hb Hf; [contradiction|].
  inversion Hnd as [|? ? Hnot Hnd']; subst.
  destruct Ha as [-> | Ha], Hb as [-> | Hb]; trivial.
  - exfalso. apply Hnot. rewrite Hf. now apply in_map.
  - exfalso. apply Hnot. rewrite <- Hf. now apply in_map.
  - now apply IH.
Qed.

(** C3, as the code has it: [deleteVenture] has no guard of its own and
    removes the record whose id it is given, the Bitcoin venture like any
    other.  The guard is in the table, which renders a delete button only on
    the rows of the other ventures: in a list with pairwise distinct ids, no
    delete that a button triggers removes a Bitcoin venture. *)
Theorem deleteVenture_guarded_by_table (st : State) :
  (forall v, In v (ventures st) ->
             ~ In v (ventures (deleteVenture (id v) st)))
  /\ (NoDup (map id (ventures st)) ->
      forall i v,
        In i (delete_buttons st) ->
        In v (ventures st) -> is_bitcoin v = true ->
        In v (ventures (deleteVenture i st))).
Proof.
  split.
  - intros v _ Hin. apply in_deleteVenture in Hin. now destruct Hin.
  - intros Hnd i v Hi Hv Hb. apply in_deleteVenture. split; [exact Hv|].
    apply in_delete_buttons in Hi as (u & Hu & Hub & <-).
    intros Heq.
    assert (v = u) by (apply (NoDup_map_inj id (ventures st)); assumption).
    congruence.
Qed.

Lemma deleteVenture_guarded_by_table_witness :
  In bitcoin_venture (ventures (deleteVenture 3 (init None))).
Proof.
  apply (proj2 (deleteVenture_guarded_by_table (init None))).
  - repeat constructor; simpl; intuition discriminate.
  - simpl. tauto.
  - simpl. tauto.
  - reflexivity.
Defined.

(** C3 as the claim states it fails on the seed: deleting by the Bitcoin
    venture's id removes it. *)
Lemma deleteVenture_removes_bitcoin :
  In bitcoin_venture (ventures (init None))
  /\ ventures (deleteVenture (id bitcoin_venture) (init None))
     <> ventures (init None)
  /\ filter is_bitcoin (ventures (deleteVenture (id bitcoin_venture) (init None)))
     = [].
Proof.
  split; [simpl; tauto|]. split; [|reflexivity].
  intros H. apply (f_equal (@List.length Venture)) in H. discriminate.
Qed.

End Editing.
(* ================================================================== *)
(** ** The calendar                                                    *)
(* ================================================================== *)

Section Calendar.

Local Open Scope Z_scope.

Lemma DayFromYear_succ (y : Z) :
  DayFromYear (y + 1) = DayFromYear y + DaysInYear y.
Proof.
  unfold DayFromYear, DaysInYear.
  destruct (Z.eqb_spec (y mod 4) 0), (Z.eqb_spec (y mod 100) 0),
    (Z.eqb_spec (y mod 400) 0); cbn [negb]; Z.div_mod_to_equations; lia.
Qed.

Lemma DayFromYear_mono (y1 y2 : Z) :
  y1 <= y2 -> DayFromYear y1 <= DayFromYear y2.
Proof. unfold DayFromYear. intros H. Z.div_mod_to_equations. lia. Qed.

Lemma DaysInYear_cases (y : Z) : DaysInYear y = 365 \/ DaysInYear y = 366.
Proof.
  unfold DaysInYear.
  destruct (y mod 4 =? 0), (y mod 100 =? 0), (y mod 400 =? 0); cbn; auto.
Qed.

(** The year [YearFromDay] returns is the one the day lies in. *)
Lemma YearFromDay_spec (d : Z) :
  DayFromYear (YearFromDay d) <= d < DayFromYear (YearFromDay d + 1).
Proof.
  unfold YearFromDay.
  set (y := 1970 + 400 * d / 146097).
  assert (Hlo : DayFromYear (y - 1) <= d)
    by (unfold DayFromYear, y; Z.div_mod_to_equations; lia).
  assert (Hhi : d < DayFromYear (y + 2))
    by (unfold DayFromYear, y; Z.div_mod_to_equations; lia).
  destruct (Z.ltb_spec d (DayFromYear y)).
  - replace (y - 1 + 1) with y by lia. lia.
  - destruct (Z.leb_spec (DayFromYear (y + 1)) d).
    + replace (y + 1 + 1) with (y + 2) by lia. lia.
    + lia.
Qed.

Lemma YearFromDay_unique (y d : Z) :
  DayFromYear y <= d < DayFromYear (y + 1) -> YearFromDay d = y.
Proof.
  intros H. pose proof (YearFromDay_spec d) as Hs.
  destruct (Z.lt_trichotomy (YearFromDay d) y) as [Hlt | [Heq | Hgt]]; trivial.
  - pose proof (DayFromYear_mono (YearFromDay d + 1) y). lia.
  - pose proof (DayFromYear_mono (y + 1) (YearFromDay d)). lia.
Qed.

Lemma Day_MakeDate (day time : Z) :
  0 <= time < msPerDay ->
  Day (MakeDate day time) = day /\ TimeWithinDay (MakeDate day time) = time.
Proof.
  unfold Day, TimeWithinDay, MakeDate, msPerDay. intros H.
  Z.div_mod_to_equations. lia.
Qed.

Lemma MonthFromTime_range (t : Z) : 0 <= MonthFromTime t < 12.
Proof.
  unfold MonthFromTime.
  repeat match goal with |- context [if ?b then _ else _] => destruct b end; lia.
Qed.

(** Making a date from the fields of a time value gives the time value
    back. *)
Lemma MakeDate_fields (t : Z) :
  MakeDate (MakeDay (YearFromTime t) (MonthFromTime t) (DateFromTime t))
           (TimeWithinDay t) = t.
Proof.
  pose proof (MonthFromTime_range t) as Hm.
  unfold MakeDay.
  rewrite (Z.div_small _ 12), (Z.mod_small _ 12), Z.add_0_r by exact Hm.
  unfold DateFromTime, InLeapYear, DayWithinYear, MakeDate, Day, TimeWithinDay.
  pose proof (Z.div_mod t msPerDay ltac:(discriminate)). lia.
Qed.

(** The fields of a date made from a year, a month counted from the year's
    January, a day of the month that every month has, and a time of day. *)
Lemma fields_of_MakeDate (y m dt tod : Z) :
  1 <= dt <= 28 -> 0 <= tod < msPerDay ->
  let t := MakeDate (MakeDay y m dt) tod in
  YearFromTime t = y + m / 12
  /\ MonthFromTime t = m mod 12
  /\ DateFromTime t = dt
  /\ TimeWithinDay t = tod.
Proof.
  intros Hdt Htod t. subst t.
  destruct (Day_MakeDate (MakeDay y m dt) tod Htod) as [Hday Htime].
  assert (Hmn : 0 <= m mod 12 < 12) by (apply Z.mod_pos_bound; lia).
  unfold DateFromTime, MonthFromTime, InLeapYear, DayWithinYear, YearFromTime.
  rewrite Hday, Htime. clear Hday Htime. unfold MakeDay.
  generalize dependent (m mod 12). intros mn Hmn.
  generalize (y + m / 12). intros ym.
  set (leap := if DaysInYear ym =? 366 then 1 else 0).
  assert (Hleap : leap = 0 /\ DaysInYear ym = 365
                  \/ leap = 1 /\ DaysInYear ym = 366).
  { unfold leap. destruct (DaysInYear_cases ym) as [-> | ->]; cbn; auto. }
  assert (Hstart : 0 <= month_start leap mn <= 334 + leap).
  { unfold month_start.
    repeat match goal with |- context [match ?x with _ => _ end] => destruct x end;
      lia. }
  assert (Hyear : YearFromDay (DayFromYear ym + month_start leap mn + dt - 1) = ym).
  { apply YearFromDay_unique. rewrite DayFromYear_succ. lia. }
  rewrite Hyear. fold leap.
  replace (DayFromYear ym + month_start leap mn + dt - 1 - DayFromYear ym)
    with (month_start leap mn + dt - 1) by lia.
  clearbody leap.
  assert (Hmonth :
    (let d := month_start leap mn + dt - 1 in
     if d <? 31 then 0
     else if d <? 59 + leap then 1
     else if d <? 90 + leap then 2
     else if d <? 120 + leap then 3
     else if d <? 151 + leap then 4
     else if d <? 181 + leap then 5
     else if d <? 212 + leap then 6
     else if d <? 243 + leap then 7
     else if d <? 273 + leap then 8
     else if d <? 304 + leap then 9
     else if d <? 334 + leap then 10
     else 11) = mn).
  { assert (Hc : mn = 0 \/ mn = 1 \/ mn = 2 \/ mn = 3 \/ mn = 4 \/ mn = 5
                 \/ mn = 6 \/ mn = 7 \/ mn = 8 \/ mn = 9 \/ mn = 10 \/ mn = 11)
      by lia.
    cbv zeta.
    repeat (destruct Hc as [-> | Hc];
            [cbn [month_start];
             repeat match goal with
                    | |- context [?a <? ?b] => destruct (Z.ltb_spec a b); try lia
                    end|]).
    subst mn. cbn [month_start].
    repeat match goal with
           | |- context [?a <? ?b] => destruct (Z.ltb_spec a b); try lia
           end. }
  cbv zeta in Hmonth. rewrite Hmonth.
  repeat split; trivial. lia.
Qed.

(** Carrying the month into the year first, or not, is the same day. *)
Lemma MakeDay_carry (y m dt : Z) :
  MakeDay (y + m / 12) (m mod 12 + 1) dt = MakeDay y (m + 1) dt.
Proof.
  unfold MakeDay.
  replace (y + m / 12 + (m mod 12 + 1) / 12) with (y + (m + 1) / 12)
    by (Z.div_mod_to_equations; lia).
  replace ((m mod 12 + 1) mod 12) with ((m + 1) mod 12)
    by (Z.div_mod_to_equations; lia).
  reflexivity.
Qed.

(** The same day of the next month is a later day. *)
Lemma MakeDay_next_month (y m dt : Z) : MakeDay y m dt < MakeDay y (m + 1) dt.
Proof.
  unfold MakeDay.
  assert (Hc : (m mod 12 = 11 /\ (m + 1) / 12 = m / 12 + 1 /\ (m + 1) mod 12 = 0)
               \/ (m mod 12 < 11 /\ (m + 1) / 12 = m / 12
                   /\ (m + 1) mod 12 = m mod 12 + 1))
    by (Z.div_mod_to_equations; lia).
  destruct Hc as [(Hm & -> & ->) | (Hm & -> & ->)].
  - rewrite Hm, Z.add_assoc, DayFromYear_succ.
    destruct (DaysInYear_cases (y + m / 12)) as [-> | ->]; cbn; lia.
  - set (leap := if DaysInYear (y + m / 12) =? 366 then 1 else 0).
    assert (0 <= leap <= 1) by (unfold leap; destruct (_ =? _); lia).
    clearbody leap.
    pose proof (Z.mod_pos_bound m 12 ltac:(lia)).
    assert (Hc : m mod 12 = 0 \/ m mod 12 = 1 \/ m mod 12 = 2 \/ m mod 12 = 3
                 \/ m mod 12 = 4 \/ m mod 12 = 5 \/ m mod 12 = 6 \/ m mod 12 = 7
                 \/ m mod 12 = 8 \/ m mod 12 = 9 \/ m mod 12 = 10) by lia.
    repeat (destruct Hc as [Hc | Hc]; [rewrite Hc; next_month|]).
    rewrite Hc; next_month.
Qed.

(** The same day of the next month is 28 to 31 days later. *)
Lemma MakeDay_step (y m dt : Z) :
  28 <= MakeDay y (m + 1) dt - MakeDay y m dt <= 31.
Proof.
  unfold MakeDay.
  assert (Hc : (m mod 12 = 11 /\ (m + 1) / 12 = m / 12 + 1 /\ (m + 1) mod 12 = 0)
               \/ (m mod 12 < 11 /\ (m + 1) / 12 = m / 12
                   /\ (m + 1) mod 12 = m mod 12 + 1))
    by (Z.div_mod_to_equations; lia).
  destruct Hc as [(Hm & -> & ->) | (Hm & -> & ->)].
  - rewrite Hm, Z.add_assoc, DayFromYear_succ.
    destruct (DaysInYear_cases (y + m / 12)) as [-> | ->];
      destruct (DaysInYear_cases (y + m / 12 + 1)) as [-> | ->]; cbn; lia.
  - set (leap := if DaysInYear (y + m / 12) =? 366 then 1 else 0).
    assert (0 <= leap <= 1) by (unfold leap; destruct (_ =? _); lia).
    clearbody leap.
    pose proof (Z.mod_pos_bound m 12 ltac:(lia)).
    assert (Hc : m mod 12 = 0 \/ m mod 12 = 1 \/ m mod 12 = 2 \/ m mod 12 = 3
                 \/ m mod 12 = 4 \/ m mod 12 = 5 \/ m mod 12 = 6 \/ m mod 12 = 7
                 \/ m mod 12 = 8 \/ m mod 12 = 9 \/ m mod 12 = 10) by lia.
    repeat (destruct Hc as [Hc | Hc]; [rewrite Hc; next_month|]).
    rewrite Hc; next_month.
Qed.

End Calendar.

(* ================================================================== *)
(** ** The equity fetcher                                              *)
(* ================================================================== *)

Section HistoryFacts.

Variable Math_pow : number -> number -> number.
Variable LocalTZA : Z -> bool -> Z.

Lemma stockValue_history_point (prices : list (option number)) (ts : Z) (i : nat) :
  stockValue (history_point LocalTZA prices ts i)
  = if priced prices i then
      match nth i prices None with
      | Some p => Some (Math_round (INITIAL_INVESTMENT / GOOGLE_START_PRICE * p))
      | None => None
      end
    else None.
Proof.
  unfold history_point, priced. cbn [stockValue].
  destruct (nth i prices None) as [p|]; [|reflexivity].
  destruct (truthy p); [|reflexivity]. cbn [andb].
  now destruct (truthy _).
Qed.

(** Filtering the mapped timestamps keeps, in order, the points of the
    priced indices. *)
Lemma filter_map_indexed (prices : list (option number)) (l : list Z) (i : nat) :
  filter (fun d => match stockValue d with Some _ => true | None => false end)
         (map_indexed (history_point LocalTZA prices) l i)
  = map (fun k => history_point LocalTZA prices (nth (k - i) l 0%Z) k)
        (filter (priced prices) (seq i (List.length l))).
Proof.
  revert i. induction l as [|ts l IH]; intros i; [reflexivity|].
  cbn [map_indexed filter List.length seq].
  rewrite stockValue_history_point, IH.
  assert (Htail :
    map (fun k => history_point LocalTZA prices (nth (k - S i) l 0%Z) k)
        (filter (priced prices) (seq (S i) (List.length l)))
    = map (fun k => history_point LocalTZA prices (nth (k - i) (ts :: l) 0%Z) k)
          (filter (priced prices) (seq (S i) (List.length l)))).
  { apply map_ext_in. intros k Hk. apply filter_In in Hk as [Hk _].
    apply in_seq in Hk. replace (k - i)%nat with (S (k - S i)) by lia.
    reflexivity. }
  destruct (priced prices i) eqn:Hp; [|exact Htail].
  destruct (nth i prices None) eqn:Hn.
  - cbn [map]. rewrite Nat.sub_diag. cbn [nth]. f_equal. exact Htail.
  - unfold priced in Hp. rewrite Hn in Hp. discriminate.
Qed.


(** C7, as the code computes it: after a fresh load and a successful fetch
    (direct, or through the proxy when the direct one failed) whose latest
    price is 100, the stock is worth 11132 and the gain is 1132. *)
Theorem stock_value_at_100 (fuel : nat) (yahoo proxy : answer)
    (d : payload) (now : Z) :
  stockData yahoo proxy = returned d ->
  last (prices d) None = Some 100%float ->
  exists st,
    fetchGoogleStock Math_pow LocalTZA fuel yahoo proxy now (init None) = Some st
    /\ ventures st = initialVentures
    /\ googlePrice st = Some 100%float
    /\ currentStockValue st = Some 11132%float
    /\ stockGain st = Some 1132%float.
Proof.
  intros Hdata Hlast. unfold fetchGoogleStock. rewrite Hdata.
  unfold returned. rewrite Hlast.
  eexists. split; [reflexivity|]. repeat split.
Qed.

End HistoryFacts.


Lemma stock_value_at_100_witness :
  exists st,
    fetchGoogleStock pow_by_products (fixed_zone 0) 0 Threw
      (returned sample_payload) 1700000000000 (init None) = Some st
    /\ ventures st = initialVentures
    /\ googlePrice st = Some 100%float
    /\ currentStockValue st = Some 11132%float
    /\ stockGain st = Some 1132%float.
Proof.
  apply (stock_value_at_100 pow_by_products (fixed_zone 0) 0 Threw
           (returned sample_payload) sample_payload 1700000000000);
    reflexivity.
Defined.

(** C7 as the claim states it fails: at a latest price of 100 the stock value
    is not 11135 and the gain is not 1135. *)
Lemma stock_value_at_100_is_not_11135 :
  exists st,
    fetchGoogleStock pow_by_products (fixed_zone 0) 0
      (returned sample_payload) Threw 1700000000000 (init None) = Some st
    /\ currentStockValue st = Some 11132%float
    /\ currentStockValue st <> Some 11135%float
    /\ stockGain st = Some 1132%float
    /\ stockGain st <> Some 1135%float.
Proof.
  eexists. split; [reflexivity|].
  split; [reflexivity|]. split; [|split; [reflexivity|]].
  - intros H.
    apply (f_equal (fun o => match o with
                             | Some x => (x <? 11133)%float
                             | None => false
                             end)) in H.
    vm_compute in H. discriminate.
  - intros H.
    apply (f_equal (fun o => match o with
                             | Some x => (x <? 1133)%float
                             | None => false
                             end)) in H.
    vm_compute in H. discriminate.
Qed.

(* ================================================================== *)
(** ** The synthetic history                                           *)
(* ================================================================== *)

Section FallbackFacts.

Variable Math_pow : number -> number -> number.

(** The host's zone; its offset from UTC is always less than a day. *)
Variable LocalTZA : Z -> bool -> Z.
Hypothesis LocalTZA_range :
  forall t isUTC, (- msPerDay < LocalTZA t isUTC < msPerDay)%Z.

Local Open Scope Z_scope.

(** The definitions, as equations to rewrite with. *)

Lemma LocalTime_eq (t : Z) : LocalTime LocalTZA t = t + LocalTZA t true.
Proof. reflexivity. Qed.

Lemma UTC_eq (t : Z) : UTC LocalTZA t = t - LocalTZA t false.
Proof. reflexivity. Qed.

Lemma MakeDate_eq (day time : Z) : MakeDate day time = day * msPerDay + time.
Proof. reflexivity. Qed.

Lemma getFullYear_eq (t : Z) :
  getFullYear LocalTZA t = YearFromTime (LocalTime LocalTZA t).
Proof. reflexivity. Qed.

Lemma getMonth_eq (t : Z) :
  getMonth LocalTZA t = MonthFromTime (LocalTime LocalTZA t).
Proof. reflexivity. Qed.

Lemma setMonth_eq (t m : Z) :
  setMonth LocalTZA t m
  = UTC LocalTZA
      (MakeDate (MakeDay (YearFromTime (LocalTime LocalTZA t)) m
                         (DateFromTime (LocalTime LocalTZA t)))
                (TimeWithinDay (LocalTime LocalTZA t))).
Proof. reflexivity. Qed.

Lemma month_date_S (k : nat) :
  month_date LocalTZA (S k)
  = setMonth LocalTZA (month_date LocalTZA k)
      (getMonth LocalTZA (month_date LocalTZA k) + 1).
Proof. reflexivity. Qed.

Lemma months_between_eq (t : Z) :
  months_between LocalTZA t
  = (getFullYear LocalTZA t - getFullYear LocalTZA START_DATE) * 12
    + (getMonth LocalTZA t - getMonth LocalTZA START_DATE).
Proof. reflexivity. Qed.

Lemma local_month_eq (start k : Z) :
  start = LocalTime LocalTZA START_DATE ->
  local_month LocalTZA k
  = MakeDate (MakeDay (YearFromTime start) (MonthFromTime start + k)
                      (DateFromTime start))
             (TimeWithinDay start).
Proof. intros ->. reflexivity. Qed.

Lemma fallback_months_S (fuel : nat) (startDateObj now current : Z)
    (months : list point) :
  fallback_months Math_pow LocalTZA (S fuel) startDateObj now current months
  = if current <=? now then
      fallback_months Math_pow LocalTZA fuel startDateObj now
        (setMonth LocalTZA current (getMonth LocalTZA current + 1))
        (months ++
         [ {| date := toLocaleDateString LocalTZA current;
              fullDate := current;
              stockValue :=
                Some (Math_round
                        (INITIAL_INVESTMENT
                         * Math_pow 1.027%float
                             (number_of_Z
                                ((getFullYear LocalTZA current
                                  - getFullYear LocalTZA startDateObj) * 12
                                 + (getMonth LocalTZA current
                                    - getMonth LocalTZA startDateObj)))));
              alexRevenue := 0 |} ])
    else Some months.
Proof. reflexivity. Qed.

Lemma fallback_eq (fuel : nat) (now : Z) (st : State) :
  fallback Math_pow LocalTZA fuel now st
  = match fallback_months Math_pow LocalTZA fuel START_DATE now START_DATE []
    with
    | Some months =>
        Some (setGoogle (Some 197%float) months false
                (Some "Could not fetch live data. Using estimated values."%string)
                st)
    | None => None
    end.
Proof. reflexivity. Qed.

Lemma fetchGoogleStock_failed (fuel : nat) (now : Z) (st : State) :
  fetchGoogleStock Math_pow LocalTZA fuel Threw Threw now st
  = fallback Math_pow LocalTZA fuel now st.
Proof. reflexivity. Qed.

(** [setMonth] to the month after its own moves a date 26 to 33 days on: the
    28 to 31 days of the month, and what the offset changed by. *)
Lemma setMonth_next (t : Z) :
  26 * msPerDay < setMonth LocalTZA t (getMonth LocalTZA t + 1) - t
  < 33 * msPerDay.
Proof.
  rewrite setMonth_eq, getMonth_eq, UTC_eq.
  pose proof (LocalTime_eq t) as Hl.
  remember (LocalTime LocalTZA t) as l eqn:Hlocal. clear Hlocal.
  pose proof (MakeDate_fields l) as Hfields.
  pose proof (MakeDay_step (YearFromTime l) (MonthFromTime l) (DateFromTime l))
    as Hstep.
  remember (MakeDay (YearFromTime l) (MonthFromTime l + 1) (DateFromTime l))
    as d1 eqn:Hd1. clear Hd1.
  remember (MakeDay (YearFromTime l) (MonthFromTime l) (DateFromTime l))
    as d0 eqn:Hd0. clear Hd0.
  rewrite MakeDate_eq in Hfields. rewrite MakeDate_eq.
  pose proof (LocalTZA_range (d1 * msPerDay + TimeWithinDay l) false) as Hb.
  pose proof (LocalTZA_range t true) as Ha.
  remember (LocalTZA (d1 * msPerDay + TimeWithinDay l) false) as b eqn:Hb'.
  clear Hb'.
  remember (LocalTZA t true) as a eqn:Ha'. clear Ha'.
  remember (TimeWithinDay l) as tod eqn:Htod. clear Htod.
  unfold msPerDay in *. lia.
Qed.

Lemma month_date_step (k : nat) :
  26 * msPerDay < month_date LocalTZA (S k) - month_date LocalTZA k
  < 33 * msPerDay.
Proof. rewrite month_date_S. apply setMonth_next. Qed.

Lemma month_date_lt (k : nat) :
  month_date LocalTZA k < month_date LocalTZA (S k).
Proof. pose proof (month_date_step k). unfold msPerDay in *. lia. Qed.

Lemma month_date_grows (j k : nat) :
  month_date LocalTZA k + Z.of_nat j <= month_date LocalTZA (k + j).
Proof.
  induction j as [|j IH].
  - rewrite Nat.add_0_r. cbn [Z.of_nat]. lia.
  - pose proof (month_date_lt (k + j)).
    replace (k + S j)%nat with (S (k + j)) by lia. lia.
Qed.

(** One turn of the loop at its [k]-th date. *)
Lemma fallback_months_step (fuel : nat) (now : Z) (k : nat) (acc : list point) :
  month_date LocalTZA k <= now ->
  fallback_months Math_pow LocalTZA (S fuel) START_DATE now
    (month_date LocalTZA k) acc
  = fallback_months Math_pow LocalTZA fuel START_DATE now
      (month_date LocalTZA (S k))
      (acc ++ [fallback_point Math_pow LocalTZA k]).
Proof.
  intros Hle.
  rewrite fallback_months_S, (proj2 (Z.leb_le _ _) Hle), month_date_S.
  reflexivity.
Qed.

(** The loop from its [k]-th date, when one of the [j] dates after it is past
    [now]: it stops after the last date that is not past [now], with the
    points from the [k]-th to that one appended, whenever it may take that
    many turns and one more. *)
Lemma fallback_months_run (now : Z) (j k : nat) (acc : list point) :
  month_date LocalTZA k <= now ->
  now < month_date LocalTZA (k + j) ->
  exists c : nat,
    month_date LocalTZA (k + c) <= now < month_date LocalTZA (S (k + c))
    /\ forall fuel, (S c < fuel)%nat ->
         fallback_months Math_pow LocalTZA fuel START_DATE now
           (month_date LocalTZA k) acc
         = Some (acc ++ map (fallback_point Math_pow LocalTZA) (seq k (S c))).
Proof.
  revert k acc. induction j as [|j IH]; intros k acc Hle Hlt.
  - rewrite Nat.add_0_r in Hlt. lia.
  - destruct (Z.le_gt_cases (month_date LocalTZA (S k)) now) as [Hnext | Hnext].
    + destruct (IH (S k) (acc ++ [fallback_point Math_pow LocalTZA k]) Hnext)
        as (c & Hc & Hrun).
      { now replace (S k + j)%nat with (k + S j)%nat by lia. }
      exists (S c). replace (k + S c)%nat with (S k + c)%nat by lia.
      split; [exact Hc|].
      intros [|fuel] Hfuel; [lia|].
      rewrite (fallback_months_step _ _ _ _ Hle), Hrun by lia.
      now rewrite <- app_assoc.
    + exists 0%nat. rewrite Nat.add_0_r.
      split; [lia|].
      intros [|[|fuel]] Hfuel; try lia.
      rewrite (fallback_months_step _ _ _ _ Hle), fallback_months_S.
      now rewrite (proj2 (Z.leb_gt _ _) Hnext).
Qed.

(** In every zone the start date falls on the second or third of January
    2023. *)
Lemma start_fields (start : Z) :
  start = LocalTime LocalTZA START_DATE ->
  YearFromTime start = 2023
  /\ MonthFromTime start = 0
  /\ 1 <= DateFromTime start <= 28
  /\ 0 <= TimeWithinDay start < msPerDay.
Proof.
  intros Hstart.
  assert (Hrange : 1672704000000 - 86400000 < start
                   < 1672704000000 + 86400000).
  { rewrite Hstart, LocalTime_eq.
    pose proof (LocalTZA_range START_DATE true) as H.
    remember (LocalTZA START_DATE true) as a eqn:Ha. clear Ha.
    replace START_DATE with 1672704000000 by reflexivity.
    unfold msPerDay in H. lia. }
  clear Hstart.
  assert (Hday : Day start = 19359 \/ Day start = 19360).
  { unfold Day, msPerDay. Z.div_mod_to_equations. lia. }
  assert (Htime : 0 <= TimeWithinDay start < msPerDay)
    by (apply Z.mod_pos_bound; reflexivity).
  unfold DateFromTime, MonthFromTime, InLeapYear, DayWithinYear, YearFromTime.
  destruct Hday as [-> | ->]; repeat split; try apply Htime; vm_compute;
    congruence.
Qed.

(** The fields of the local time [k] months after the start date's. *)
Lemma local_month_fields (k : Z) :
  YearFromTime (local_month LocalTZA k) = 2023 + k / 12
  /\ MonthFromTime (local_month LocalTZA k) = k mod 12
  /\ DateFromTime (local_month LocalTZA k)
     = DateFromTime (LocalTime LocalTZA START_DATE)
  /\ TimeWithinDay (local_month LocalTZA k)
     = TimeWithinDay (LocalTime LocalTZA START_DATE).
Proof.
  remember (LocalTime LocalTZA START_DATE) as start eqn:Hstart.
  destruct (start_fields start Hstart) as (Hy & Hm & Hd & Ht).
  rewrite (local_month_eq start k Hstart), Hy, Hm, Z.add_0_l.
  apply fields_of_MakeDate; assumption.
Qed.

(** Where no local time of the series is skipped, the [k]-th date of the
    loop is, in local time, [k] months after the start date. *)
Lemma month_date_local (k : nat) :
  unskipped LocalTZA ->
  LocalTime LocalTZA (month_date LocalTZA k) = local_month LocalTZA (Z.of_nat k)
  /\ month_date LocalTZA (S k)
     = UTC LocalTZA (local_month LocalTZA (Z.of_nat (S k))).
Proof.
  intros Hzone.
  assert (Hnext : forall j : nat,
            LocalTime LocalTZA (month_date LocalTZA j)
            = local_month LocalTZA (Z.of_nat j) ->
            month_date LocalTZA (S j)
            = UTC LocalTZA (local_month LocalTZA (Z.of_nat (S j)))).
  { intros j Hj.
    destruct (local_month_fields (Z.of_nat j)) as (Hy & Hm & Hd & Ht).
    rewrite month_date_S, setMonth_eq, getMonth_eq, Hj, Hy, Hm, Hd, Ht.
    remember (LocalTime LocalTZA START_DATE) as start eqn:Hstart.
    destruct (start_fields start Hstart) as (Hy0 & Hm0 & _).
    rewrite (local_month_eq start (Z.of_nat (S j)) Hstart), Hy0, Hm0, Z.add_0_l.
    replace (Z.of_nat (S j)) with (Z.of_nat j + 1) by lia.
    now rewrite MakeDay_carry. }
  induction k as [|k [IHlocal IHnext]].
  - assert (H0 : LocalTime LocalTZA (month_date LocalTZA 0)
                 = local_month LocalTZA (Z.of_nat 0)).
    { rewrite (local_month_eq _ (Z.of_nat 0) eq_refl). cbn [Z.of_nat].
      rewrite Z.add_0_r, MakeDate_fields. reflexivity. }
    split; [exact H0 | exact (Hnext 0%nat H0)].
  - assert (HS : LocalTime LocalTZA (month_date LocalTZA (S k))
                 = local_month LocalTZA (Z.of_nat (S k))).
    { rewrite IHnext. apply Hzone. }
    split; [exact HS | exact (Hnext (S k) HS)].
Qed.

(** C5: when both requests fail and the clock is not before the start date,
    the history is the synthetic series, in every zone whose offset stays
    under a day: [S n] points, the first at the start date, each next one at
    the date [setMonth] moves the one before it to, 26 to 33 days later, up
    to the last such date that is not past [now]; the value of each is
    [Math.round(10000 * Math.pow(1.027, m))] for the [m] calendar months
    from the start date to its date in local time; and the advisory is set.
    The loop ends whenever it may take [S n] turns and one more.  Where no
    transition of the zone skips a local time of the series, the [k]-th date
    is the start date's local day of the month and time of day [k] months
    on, and its [m] is [k]. *)
Theorem fallback_history (now : Z) (st : State) :
  START_DATE <= now ->
  exists n : nat,
    (forall fuel, (S n < fuel)%nat ->
       exists st',
         fetchGoogleStock Math_pow LocalTZA fuel Threw Threw now st = Some st'
         /\ googleHistory st' = fallback_series Math_pow LocalTZA (S n)
         /\ googleHistory st' <> []
         /\ error st'
            = Some "Could not fetch live data. Using estimated values."%string)
    /\ month_date LocalTZA 0 = START_DATE
    /\ month_date LocalTZA n <= now < month_date LocalTZA (S n)
    /\ (forall k : nat,
          month_date LocalTZA (S k)
          = setMonth LocalTZA (month_date LocalTZA k)
              (getMonth LocalTZA (month_date LocalTZA k) + 1)
          /\ 26 * msPerDay
             < month_date LocalTZA (S k) - month_date LocalTZA k
             < 33 * msPerDay)
    /\ (unskipped LocalTZA ->
        forall k : nat,
          LocalTime LocalTZA (month_date LocalTZA k)
          = local_month LocalTZA (Z.of_nat k)
          /\ month_date LocalTZA (S k)
             = UTC LocalTZA (local_month LocalTZA (Z.of_nat (S k)))
          /\ getFullYear LocalTZA (month_date LocalTZA k) * 12
             + getMonth LocalTZA (month_date LocalTZA k)
             = 2023 * 12 + Z.of_nat k
          /\ DateFromTime (LocalTime LocalTZA (month_date LocalTZA k))
             = DateFromTime (LocalTime LocalTZA START_DATE)
          /\ TimeWithinDay (LocalTime LocalTZA (month_date LocalTZA k))
             = TimeWithinDay (LocalTime LocalTZA START_DATE)
          /\ months_between LocalTZA (month_date LocalTZA k) = Z.of_nat k).
Proof.
  intros Hnow.
  destruct (fallback_months_run now (S (Z.to_nat (now - START_DATE))) 0 [])
    as (n & Hn & Hrun).
  { exact Hnow. }
  { pose proof (month_date_grows (S (Z.to_nat (now - START_DATE))) 0) as H.
    rewrite Nat.add_0_l in *.
    replace (month_date LocalTZA 0) with START_DATE in H by reflexivity. lia. }
  rewrite Nat.add_0_l in Hn.
  exists n. split; [|split; [|split; [|split]]].
  - intros fuel Hfuel.
    replace (month_date LocalTZA 0) with START_DATE in Hrun by reflexivity.
    rewrite fetchGoogleStock_failed, fallback_eq, (Hrun fuel Hfuel), app_nil_l.
    eexists. split; [reflexivity|].
    split; [reflexivity|]. split; [discriminate | reflexivity].
  - reflexivity.
  - exact Hn.
  - intros k. split; [apply month_date_S | apply month_date_step].
  - intros Hzone k.
    destruct (month_date_local k Hzone) as [Hlocal Hnext].
    destruct (local_month_fields (Z.of_nat k)) as (Hy & Hm & Hd & Ht).
    destruct (start_fields _ eq_refl) as (Hy0 & Hm0 & _).
    split; [exact Hlocal|]. split; [exact Hnext|].
    rewrite months_between_eq, !getFullYear_eq, !getMonth_eq, Hlocal, Hy, Hm,
      Hd, Ht, Hy0, Hm0.
    repeat split; Z.div_mod_to_equations; lia.
Qed.

End FallbackFacts.

(** The series is at 19:00 local time in New York, an hour no transition
    skips. *)
Lemma new_york_2023_unskipped : unskipped new_york_2023.
Proof.
  intros k.
  rewrite (local_month_eq new_york_2023 _ (Z.of_nat k) eq_refl), MakeDate_eq.
  change (TimeWithinDay (LocalTime new_york_2023 START_DATE)) with 68400000%Z.
  remember (MakeDay _ _ _) as d eqn:Hd. clear Hd.
  unfold LocalTime, UTC, new_york_2023, msPerDay.
  repeat (match goal with
          | |- context [(?a <=? ?b)%Z] => destruct (Z.leb_spec a b)
          | |- context [(?a <? ?b)%Z] => destruct (Z.ltb_spec a b)
          end; cbn [andb] in *); lia.
Qed.

Lemma fallback_history_witness :
  (forall t isUTC, (- msPerDay < new_york_2023 t isUTC < msPerDay)%Z)
  /\ (START_DATE <= 1680476400000)%Z
  /\ (exists n : nat,
        (forall fuel, (S n < fuel)%nat ->
           exists st',
             fetchGoogleStock pow_by_products new_york_2023 fuel Threw Threw
               1680476400000 (init None) = Some st'
             /\ googleHistory st' = fallback_series pow_by_products new_york_2023 (S n)
             /\ googleHistory st' <> []
             /\ error st'
                = Some "Could not fetch live data. Using estimated values.")
        /\ month_date new_york_2023 0 = START_DATE
        /\ (month_date new_york_2023 n <= 1680476400000
            < month_date new_york_2023 (S n))%Z
        /\ (forall k : nat,
              month_date new_york_2023 (S k)
              = setMonth new_york_2023 (month_date new_york_2023 k)
                  (getMonth new_york_2023 (month_date new_york_2023 k) + 1)
              /\ (26 * msPerDay
                  < month_date new_york_2023 (S k) - month_date new_york_2023 k
                  < 33 * msPerDay)%Z)
        /\ (unskipped new_york_2023 ->
            forall k : nat,
              LocalTime new_york_2023 (month_date new_york_2023 k)
              = local_month new_york_2023 (Z.of_nat k)
              /\ month_date new_york_2023 (S k)
                 = UTC new_york_2023 (local_month new_york_2023 (Z.of_nat (S k)))
              /\ (getFullYear new_york_2023 (month_date new_york_2023 k) * 12
                  + getMonth new_york_2023 (month_date new_york_2023 k)
                  = 2023 * 12 + Z.of_nat k)%Z
              /\ DateFromTime (LocalTime new_york_2023 (month_date new_york_2023 k))
                 = DateFromTime (LocalTime new_york_2023 START_DATE)
              /\ TimeWithinDay (LocalTime new_york_2023 (month_date new_york_2023 k))
                 = TimeWithinDay (LocalTime new_york_2023 START_DATE)
              /\ months_between new_york_2023 (month_date new_york_2023 k)
                 = Z.of_nat k))
  /\ unskipped new_york_2023
  /\ map fullDate (fallback_series pow_by_products new_york_2023 4)
     = [1672704000000; 1675382400000; 1677801600000; 1680476400000]%Z
  /\ (1680476400000 < month_date new_york_2023 4)%Z.
Proof.
  assert (Hzone : forall t isUTC,
            (- msPerDay < new_york_2023 t isUTC < msPerDay)%Z).
  { intros t isUTC. unfold new_york_2023, msPerDay.
    destruct isUTC; destruct (_ && _)%bool; lia. }
  assert (Hnow : (START_DATE <= 1680476400000)%Z)
    by (apply Z.leb_le; reflexivity).
  split; [exact Hzone|]. split; [exact Hnow|].
  split; [|split; [exact new_york_2023_unskipped|];
           split; [reflexivity | apply Z.ltb_lt; reflexivity]].
  exact (fallback_history pow_by_products new_york_2023 Hzone
           1680476400000 (init None) Hnow).
Defined.

(** C5 as the claim states it fails when the clock is before the start date:
    the loop does not run and the history is empty, however many turns the
    loop may take. *)
Lemma fallback_history_empty_before_start :
  (exists st',
     fetchGoogleStock pow_by_products (fixed_zone 0) 1 Threw Threw
       (START_DATE - 1) (init None)
     = Some st'
     /\ googleHistory st' = [])
  /\ (exists st',
        fetchGoogleStock pow_by_products (fixed_zone 0) 1000 Threw Threw
          (START_DATE - 1) (init None) = Some st'
        /\ googleHistory st' = []).
Proof. split; eexists; split; reflexivity. Qed.

(* ================================================================== *)
(** ** Further properties: editing the list                            *)
(* ================================================================== *)

Section MoreEditing.

(** X1: a second "Add Venture" right after a first adds nothing: the first
    empties the form, so the second finds a blank name, whatever the clock
    reads. *)
Theorem addVenture_twice (now now' : Z) (st : State) :
  addVenture now' (addVenture now st) = addVenture now st.
Proof.
  unfold addVenture at 2 3.
  destruct (truthy_string (trim (form_name (newVenture st)))) eqn:Hname;
    cbn [negb].
  - reflexivity.
  - unfold addVenture. now rewrite Hname.
Qed.

Lemma filter_all {A : Type} (f : A -> bool) (l : list A) :
  (forall a, In a l -> f a = true) -> filter f l = l.
Proof.
  induction l as [|a l IH]; intros H; [reflexivity|].
  cbn [filter]. rewrite (H a (or_introl eq_refl)), IH; [reflexivity|].
  intros b Hb. apply H. now right.
Qed.

Lemma delete_absent (i : Z) (l : list Venture) :
  ~ In i (map id l) -> filter (fun v => negb (id v =? i)%Z) l = l.
Proof.
  intros Hi. apply filter_all. intros v Hv.
  apply negb_true_iff, Z.eqb_neq. intros <-. apply Hi. now apply in_map.
Qed.

(** X2: deleting the venture that was just added, by its id, gives the list
    back, provided the clock value it got as id was the id of no other
    venture. *)
Theorem delete_after_add (now : Z) (st : State) :
  ~ In now (map id (ventures st)) ->
  ventures (deleteVenture now (addVenture now st)) = ventures st.
Proof.
  intros Hfresh. unfold addVenture.
  destruct (truthy_string (trim (form_name (newVenture st)))); cbn [negb].
  - unfold deleteVenture. cbn [setForm setVentures ventures].
    rewrite filter_app, (delete_absent _ _ Hfresh). cbn [filter id].
    rewrite Z.eqb_refl. cbn [negb]. apply app_nil_r.
  - unfold deleteVenture. cbn [setVentures ventures].
    apply delete_absent, Hfresh.
Qed.

Lemma delete_after_add_witness :
  ventures
    (deleteVenture 1700000000000
       (addVenture 1700000000000
          (setForm true {| form_name := "Pickles"; form_revenue := VStr "5";
                           form_expenses := "" |} (init None))))
  = initialVentures.
Proof.
  apply (delete_after_add 1700000000000
           (setForm true {| form_name := "Pickles"; form_revenue := VStr "5";
                            form_expenses := "" |} (init None))).
  simpl. intuition discriminate.
Defined.

Lemma setVentures_twice (l l' : list Venture) (st : State) :
  setVentures l (setVentures l' st) = setVentures l st.
Proof. reflexivity. Qed.

(** X3: [deleteVenture] by an id no venture has changes nothing; deleting
    twice by the same id is deleting once; two deletes give the same state in
    either order; and a delete removes as many records as carry the id. *)
Theorem deleteVenture_algebra (i j : Z) (st : State) :
  (~ In i (map id (ventures st)) -> deleteVenture i st = st)
  /\ deleteVenture i (deleteVenture i st) = deleteVenture i st
  /\ deleteVenture i (deleteVenture j st) = deleteVenture j (deleteVenture i st)
  /\ (List.length (ventures (deleteVenture i st))
      + List.length (filter (fun v => (id v =? i)%Z) (ventures st))
      = List.length (ventures st))%nat.
Proof.
  unfold deleteVenture. rewrite !setVentures_twice. cbn [setVentures ventures].
  split; [|split; [|split]].
  - intros Hi. rewrite (delete_absent _ _ Hi). destruct st; reflexivity.
  - f_equal. induction (ventures st) as [|v l IH]; [reflexivity|].
    cbn [filter]. destruct (id v =? i)%Z eqn:Hv; cbn [negb filter]; [exact IH|].
    rewrite Hv. cbn [negb]. now rewrite IH.
  - f_equal. induction (ventures st) as [|v l IH]; [reflexivity|].
    cbn [filter].
    destruct (id v =? i)%Z eqn:Hi, (id v =? j)%Z eqn:Hj; cbn [negb filter];
      rewrite ?Hi, ?Hj; cbn [negb]; now rewrite IH.
  - induction (ventures st) as [|v l IH]; [reflexivity|].
    cbn [filter]. destruct (id v =? i)%Z; cbn [negb List.length]; lia.
Qed.

Lemma deleteVenture_algebra_witness : deleteVenture 99 (init None) = init None.
Proof.
  apply (proj1 (deleteVenture_algebra 99 0 (init None))).
  simpl. intuition discriminate.
Defined.

Lemma revenue_value_or_zero (r : value) :
  revenue_value (VNum (or_zero (parseFloat r))) = revenue_value r.
Proof.
  unfold or_zero, truthy, revenue_value at 1.
  destruct (is_nan (parseFloat r)) eqn:Hnan; cbn [orb negb].
  - unfold revenue_value. now rewrite Hnan.
  - destruct (is_zero (parseFloat r)) eqn:Hzero; cbn [negb].
    + unfold revenue_value. now rewrite Hnan, Hzero.
    + cbn [parseFloat]. rewrite Hzero, Hnan, Hzero. cbn [orb].
      unfold revenue_value. now rewrite Hnan, Hzero.
Qed.

Lemma fold_add_app (l l' : list number) (acc : number) :
  fold_left PrimFloat.add (l ++ l') acc
  = fold_left PrimFloat.add l' (fold_left PrimFloat.add l acc).
Proof. apply fold_left_app. Qed.

(** X4: adding a venture with a name raises the total revenue by the numeric
    value of the revenue typed in the form, which is never [NaN]. *)
Theorem totalRevenue_after_add (now : Z) (st : State) :
  trim (form_name (newVenture st)) <> ""%string ->
  totalRevenue (addVenture now st)
  = (totalRevenue st + revenue_value (form_revenue (newVenture st)))%float
  /\ is_nan (revenue_value (form_revenue (newVenture st))) = false.
Proof.
  intros Hname. split.
  - unfold totalRevenue. rewrite !fold_revenue.
    unfold addVenture.
    destruct (truthy_string (trim (form_name (newVenture st)))) eqn:Htrim;
      [|now apply truthy_string_empty in Htrim].
    cbn [negb setForm setVentures ventures].
    rewrite map_app, fold_add_app. cbn [map fold_left revenue].
    now rewrite revenue_value_or_zero.
  - unfold revenue_value.
    destruct (is_nan (parseFloat (form_revenue (newVenture st)))) eqn:Hnan;
      cbn [orb]; [reflexivity|].
    now destruct (is_zero _).
Qed.

Lemma totalRevenue_after_add_witness :
  totalRevenue
    (addVenture 1700000000000
       (setForm true {| form_name := "Pickles"; form_revenue := VStr "12.5";
                        form_expenses := "" |} (init None)))
  = 12.5%float.
Proof.
  rewrite (proj1 (totalRevenue_after_add 1700000000000
                    (setForm true {| form_name := "Pickles";
                                     form_revenue := VStr "12.5";
                                     form_expenses := "" |} (init None))
                    ltac:(discriminate))).
  reflexivity.
Defined.

End MoreEditing.

(* ================================================================== *)
(** ** Further properties: the store                                   *)
(* ================================================================== *)

Section MoreStore.

Lemma filter_parse_flagged (text : document) :
  List.length (filter is_bitcoin (JSON_parse text))
  = List.length (filter flagged text).
Proof.
  unfold JSON_parse. induction text as [|o text IH]; [reflexivity|].
  cbn [map filter]. unfold is_bitcoin at 1, flagged at 1.
  cbn [isBitcoin]. destruct (s_isBitcoin o) as [[|]|]; cbn [List.length];
    now rewrite IH.
Qed.

Lemma find_some_filter {A : Type} (f : A -> bool) (l : list A) (a : A) :
  find f l = Some a -> (1 <= List.length (filter f l))%nat.
Proof.
  induction l as [|b l IH]; cbn [find filter]; [discriminate|].
  destruct (f b); cbn [List.length]; [lia | exact IH].
Qed.

Lemma find_some_of_in {A : Type} (f : A -> bool) (l : list A) (a : A) :
  In a l -> f a = true -> find f l <> None.
Proof.
  induction l as [|b l IH]; cbn [In find]; [contradiction|].
  intros [-> | Ha] Hf; [now rewrite Hf|].
  destruct (f b); [discriminate | now apply IH].
Qed.

(** X5: [load] keeps every stored record, in order, and returns as many
    Bitcoin ventures as the stored list flags, one when it flags none: it
    appends the missing one and removes no duplicate. *)
Theorem load_bitcoin_count (text : document) :
  firstn (List.length text) (load (Some text)) = JSON_parse text
  /\ List.length (filter is_bitcoin (load (Some text)))
     = Nat.max 1 (List.length (filter flagged text)).
Proof.
  assert (Hlen : List.length (JSON_parse text) = List.length text)
    by apply length_map.
  unfold load. rewrite <- filter_parse_flagged.
  destruct (find is_bitcoin (JSON_parse text)) as [a|] eqn:Hfind.
  - split.
    + rewrite <- Hlen. apply firstn_all.
    + apply find_some_filter in Hfind. lia.
  - split.
    + rewrite <- Hlen, firstn_app, Nat.sub_diag, firstn_all. apply app_nil_r.
    + rewrite filter_app, (find_none_filter _ _ Hfind). reflexivity.
Qed.

Lemma parse_stringify_storable (r : value) :
  storable r -> JSON_parse_value (JSON_stringify_value r) = r.
Proof.
  destruct r as [| | b | x | s];
    cbn [storable JSON_stringify_value JSON_parse_value]; try reflexivity.
  intros [Hfin Hzero]. rewrite Hfin. cbn [JSON_parse_value].
  destruct (is_zero x) eqn:Hz; [now rewrite (Hzero eq_refl) | reflexivity].
Qed.

Lemma parse_stringify_list (l : list Venture) :
  (forall v, In v l -> storable (revenue v)) ->
  JSON_parse (JSON_stringify l) = l.
Proof.
  intros H. unfold JSON_parse, JSON_stringify. rewrite map_map.
  rewrite <- (map_id l) at 2. apply map_ext_in. intros v Hv.
  cbn [s_id s_name s_revenue s_expenses s_isBitcoin].
  rewrite (parse_stringify_storable _ (H v Hv)). now destruct v.
Qed.

(** X6: loading the page again gives the same venture list, when the list
    holds a Bitcoin venture and no revenue is a Number that is [NaN],
    infinite or [-0]. *)
Theorem reload_exact (st : State) :
  (exists v, In v (ventures st) /\ is_bitcoin v = true) ->
  (forall v, In v (ventures st) -> storable (revenue v)) ->
  ventures (reload st) = ventures st.
Proof.
  intros (b & Hb & Hflag) Hstorable. unfold reload. cbn [init ventures].
  apply load_save_fixed.
  - now apply parse_stringify_list.
  - now apply (find_some_of_in _ _ b).
Qed.

Lemma reload_exact_witness :
  ventures
    (reload
       (addVenture 1700000000000
          (setForm true {| form_name := "Pickles"; form_revenue := VStr "12.5";
                           form_expenses := "$50" |} (init None))))
  = initialVentures ++
    [ {| id := 1700000000000; name := "Pickles"; revenue := VNum 12.5;
         expenses := "$50"; isBitcoin := None |} ].
Proof.
  rewrite reload_exact.
  - reflexivity.
  - exists bitcoin_venture. split; [simpl; tauto | reflexivity].
  - intros v Hv. simpl in Hv.
    repeat (destruct Hv as [<- | Hv]; [split; [reflexivity | trivial]|]);
      try contradiction.
    vm_compute. discriminate.
Defined.

Lemma revenue_value_roundtrip (r : value) :
  is_finite (revenue_value r) = true ->
  revenue_value (JSON_parse_value (JSON_stringify_value r)) = revenue_value r.
Proof.
  destruct r as [| | b | x | s];
    cbn [JSON_stringify_value JSON_parse_value]; try reflexivity.
  unfold revenue_value at 1 3. cbn [parseFloat].
  destruct (is_finite x) eqn:Hfin; cbn [JSON_parse_value].
  - intros _. unfold revenue_value. cbn [parseFloat].
    destruct (is_zero x) eqn:Hz; [reflexivity|].
    repeat first [rewrite Hz | progress cbv iota]. reflexivity.
  - destruct (is_zero x) eqn:Hz; [reflexivity|].
    destruct (is_nan x) eqn:Hnan; [reflexivity|].
    repeat first [rewrite Hz | rewrite Hnan | progress cbv iota].
    cbn [orb]. congruence.
Qed.

Lemma is_bitcoin_roundtrip (l : list Venture) :
  find is_bitcoin l <> None ->
  find is_bitcoin (JSON_parse (JSON_stringify l)) <> None.
Proof.
  unfold JSON_parse, JSON_stringify.
  induction l as [|v l IH]; [trivial|].
  cbn [map find]. unfold is_bitcoin at 1 3. cbn [isBitcoin s_isBitcoin].
  destruct (isBitcoin v) as [[|]|]; trivial; discriminate.
Qed.

(** X7: loading the page again does not change the total revenue, when the
    list holds a Bitcoin venture and no revenue counts as infinite; a
    revenue that is [NaN] is stored as [null] and counts 0 before and
    after. *)
Theorem reload_total (st : State) :
  (exists v, In v (ventures st) /\ is_bitcoin v = true) ->
  (forall v, In v (ventures st) ->
             is_finite (revenue_value (revenue v)) = true) ->
  totalRevenue (reload st) = totalRevenue st.
Proof.
  intros (b & Hb & Hflag) Hfinite.
  unfold totalRevenue. rewrite !fold_revenue. f_equal.
  unfold reload. cbn [init ventures]. unfold save, load.
  pose proof (is_bitcoin_roundtrip (ventures st)
                (find_some_of_in _ _ b Hb Hflag)) as Hfind.
  destruct (find is_bitcoin (JSON_parse (JSON_stringify (ventures st))));
    [|congruence].
  unfold JSON_parse, JSON_stringify. rewrite !map_map.
  apply map_ext_in. intros u Hu. cbn [revenue s_revenue].
  apply revenue_value_roundtrip, Hfinite, Hu.
Qed.

Lemma reload_total_witness :
  revenue
    (last (ventures (reload (update_bitcoin_venture
                               (setBitcoin 105000 nan (init None)))))
          bitcoin_venture) = VNull
  /\ totalRevenue (reload (update_bitcoin_venture
                             (setBitcoin 105000 nan (init None))))
     = 0%float.
Proof.
  split; [reflexivity|].
  rewrite reload_total.
  - reflexivity.
  - exists (last (ventures (update_bitcoin_venture
                              (setBitcoin 105000 nan (init None))))
                 bitcoin_venture).
    split; [simpl; tauto | reflexivity].
  - intros v Hv. simpl in Hv.
    repeat (destruct Hv as [<- | Hv]; [reflexivity|]). contradiction.
Defined.

End MoreStore.

(* ================================================================== *)
(** ** Further properties: the reconciler                              *)
(* ================================================================== *)

Section MoreReconciler.

(** X8: the patch is idempotent: running the effect of lines 60-66 again on
    the state it produced changes nothing. *)
Theorem update_bitcoin_venture_idempotent (st : State) :
  update_bitcoin_venture (update_bitcoin_venture st) = update_bitcoin_venture st.
Proof.
  unfold update_bitcoin_venture at 2.
  destruct (bitcoinValue st) as [value|] eqn:Hvalue; [|reflexivity].
  unfold update_bitcoin_venture. cbn [setVentures bitcoinValue ventures].
  rewrite Hvalue. unfold setVentures. cbn [ventures googlePrice bitcoinPrice
    bitcoinValue googleHistory loading error showAddForm newVenture].
  f_equal. rewrite map_map. apply map_ext. intros v.
  destruct (is_bitcoin v) eqn:Hv; [|now rewrite Hv].
  unfold is_bitcoin in *. cbn [isBitcoin id name expenses]. now rewrite Hv.
Qed.

(** Adding a zero to a number that is not [-0] gives the number back. *)
Lemma add_zero_r (x : number) :
  Prim2SF x <> S754_zero true -> (x + 0)%float = x.
Proof.
  intros Hx. apply Prim2SF_inj. rewrite add_spec.
  change (Prim2SF 0) with (S754_zero false).
  destruct (Prim2SF x) as [[|] | [|] | | s m e]; try reflexivity; congruence.
Qed.

Lemma add_zero_l (x : number) :
  Prim2SF x <> S754_zero true -> (0 + x)%float = x.
Proof.
  intros Hx. apply Prim2SF_inj. rewrite add_spec.
  change (Prim2SF 0) with (S754_zero false).
  destruct (Prim2SF x) as [[|] | [|] | | s m e]; try reflexivity; congruence.
Qed.

(** The numeric value of a revenue is never [-0]. *)
Lemma revenue_value_not_neg_zero (r : value) :
  Prim2SF (revenue_value r) <> S754_zero true.
Proof.
  unfold revenue_value.
  destruct (is_nan (parseFloat r) || is_zero (parseFloat r))%bool eqn:H.
  - vm_compute. discriminate.
  - apply orb_false_iff in H as [_ Hzero]. intros Hp.
    unfold is_zero in Hzero. rewrite eqb_spec, Hp in Hzero. discriminate.
Qed.

Lemma fold_zeros (l : list Venture) (acc : number) :
  Prim2SF acc <> S754_zero true ->
  (forall v, In v l -> revenue_value (revenue v) = 0%float) ->
  @fold_left float number PrimFloat.add
    (map (fun v => revenue_value (revenue v)) l) acc = acc.
Proof.
  intros Hacc. induction l as [|v l IH]; intros H; [reflexivity|].
  cbn [map fold_left]. rewrite (H v (or_introl eq_refl)), (add_zero_r _ Hacc).
  apply IH. intros u Hu. apply H. now right.
Qed.

(** X9: when every venture but one counts 0, the total revenue is the numeric
    value of that one's revenue, and the verdict is the positive one exactly
    when that value is above 0.  This is the seed once the Bitcoin venture is
    patched: the verdict follows the Bitcoin profit alone. *)
Theorem single_revenue_decides (st : State) (before after : list Venture)
    (b : Venture) :
  ventures st = before ++ b :: after ->
  (forall v, In v (before ++ after) -> revenue_value (revenue v) = 0%float) ->
  totalRevenue st = revenue_value (revenue b)
  /\ isEntrepreneur st = (0 <? revenue_value (revenue b))%float.
Proof.
  intros Hlist Hzero.
  assert (Htotal : totalRevenue st = revenue_value (revenue b)).
  { unfold totalRevenue. rewrite fold_revenue, Hlist, map_app, fold_left_app.
    cbn [map fold_left].
    rewrite (fold_zeros before 0).
    - rewrite (add_zero_l _ (revenue_value_not_neg_zero _)).
      apply fold_zeros; [apply revenue_value_not_neg_zero|].
      intros v Hv. apply Hzero, in_or_app. now right.
    - vm_compute. discriminate.
    - intros v Hv. apply Hzero, in_or_app. now left. }
  split; [exact Htotal|]. unfold isEntrepreneur. now rewrite Htotal.
Qed.

Lemma single_revenue_decides_witness :
  totalRevenue (update_bitcoin_venture (fetchBitcoinPrice None (init None)))
  = (-106)%float
  /\ isEntrepreneur (update_bitcoin_venture (fetchBitcoinPrice None (init None)))
     = false.
Proof.
  destruct (single_revenue_decides
              (update_bitcoin_venture (fetchBitcoinPrice None (init None)))
              (removelast initialVentures) []
              {| id := 8; name := "Bitcoin Investor"; revenue := VNum (-106);
                 expenses := "$1,000"; isBitcoin := Some true |})
    as [Htotal Hverdict].
  - reflexivity.
  - intros v Hv. simpl in Hv.
    repeat (destruct Hv as [<- | Hv]; [reflexivity|]). contradiction.
  - rewrite Htotal, Hverdict. split; reflexivity.
Defined.

End MoreReconciler.

(* ================================================================== *)
(** ** Further properties: the equity fetcher                          *)
(* ================================================================== *)

Section MoreFetcher.

Variable Math_pow : number -> number -> number.
Variable LocalTZA : Z -> bool -> Z.
Hypothesis LocalTZA_range :
  forall t isUTC, (- msPerDay < LocalTZA t isUTC < msPerDay)%Z.

Lemma nth_last {A : Type} (l : list A) (d : A) :
  nth (List.length l - 1) l d = last l d.
Proof.
  induction l as [|a [|b l] IH]; try reflexivity.
  cbn [List.length Nat.sub nth last] in *. now rewrite Nat.sub_0_r in IH.
Qed.

Lemma filter_none {A : Type} (f : A -> bool) (l : list A) :
  (forall a, In a l -> f a = false) -> filter f l = [].
Proof.
  induction l as [|a l IH]; intros H; [reflexivity|].
  cbn [filter]. rewrite (H a (or_introl eq_refl)). apply IH.
  intros b Hb. apply H. now right.
Qed.

Lemma build_history_kept (d : payload) :
  build_history LocalTZA d
  = map (fun i => history_point LocalTZA (prices d) (nth i (timestamps d) 0%Z) i)
        (kept_indices d).
Proof.
  unfold build_history, kept_indices. rewrite filter_map_indexed.
  apply map_ext. intros k. now rewrite Nat.sub_0_r.
Qed.

(** The kept indices end with the index of the last price, when it is a
    price worth a nonzero amount and has a timestamp. *)
Lemma kept_indices_last (d : payload) (p : number) :
  (List.length (prices d) <= List.length (timestamps d))%nat ->
  last (prices d) None = Some p ->
  truthy p = true -> truthy (shares * p)%float = true ->
  exists front,
    kept_indices d = front ++ [(List.length (prices d) - 1)%nat]
    /\ nth (List.length (prices d) - 1) (prices d) None = Some p
    /\ priced (prices d) (List.length (prices d) - 1) = true.
Proof.
  intros Hlen Hlast Hp Hv.
  assert (Hm : (1 <= List.length (prices d))%nat).
  { destruct (prices d); [discriminate | cbn; lia]. }
  assert (Hnth : nth (List.length (prices d) - 1) (prices d) None = Some p)
    by now rewrite nth_last.
  assert (Hpriced : priced (prices d) (List.length (prices d) - 1) = true).
  { unfold priced. rewrite Hnth. fold shares. now rewrite Hp, Hv. }
  exists (filter (priced (prices d)) (seq 0 (List.length (prices d) - 1))).
  split; [|split; assumption].
  unfold kept_indices.
  replace (List.length (timestamps d))
    with ((List.length (prices d) - 1)
          + (1 + (List.length (timestamps d) - List.length (prices d))))%nat
    by lia.
  rewrite seq_app, filter_app, Nat.add_0_l, seq_app, filter_app.
  cbn [seq filter]. rewrite Hpriced. cbn [app]. do 2 f_equal.
  apply filter_none. intros i Hi. apply in_seq in Hi. unfold priced.
  now rewrite nth_overflow by lia.
Qed.

(** X10: after a successful fetch whose last price is a number other than 0
    and [NaN], worth a nonzero amount and with a timestamp of its own, the
    stock value of the headline is the stock value of the last point of the
    chart. *)
Theorem headline_is_last_point (fuel : nat) (proxy : answer) (now : Z)
    (st : State) (d : payload) (p : number) :
  (List.length (prices d) <= List.length (timestamps d))%nat ->
  last (prices d) None = Some p ->
  truthy p = true -> truthy (shares * p)%float = true ->
  exists st' front pt,
    fetchGoogleStock Math_pow LocalTZA fuel (returned d) proxy now st = Some st'
    /\ googleHistory st' = front ++ [pt]
    /\ stockValue pt = currentStockValue st'
    /\ currentStockValue st' = Some (Math_round (shares * p)).
Proof.
  intros Hlen Hlast Hp Hv.
  destruct (kept_indices_last d p Hlen Hlast Hp Hv) as (front & Hkept & Hnth & Hpriced).
  destruct d as [timestamps prices]. cbn [App.timestamps App.prices] in *.
  exists (setGoogle (last prices None)
            (build_history LocalTZA
               {| timestamps := timestamps; prices := prices |})
            false None st).
  eexists. eexists. split; [reflexivity|].
  cbn [googleHistory setGoogle]. unfold currentStockValue.
  cbn [googlePrice setGoogle]. rewrite Hlast, Hp.
  rewrite build_history_kept, Hkept, map_app.
  cbn [map App.timestamps App.prices].
  split; [reflexivity|]. split; [|reflexivity].
  now rewrite stockValue_history_point, Hpriced, Hnth.
Qed.

(** The points the fallback loop returns are those it was given and points
    with a stock value and no revenue. *)
Lemma fallback_months_points (fuel : nat) (now current : Z)
    (acc months : list point) :
  Forall (fun pt => stockValue pt <> None /\ alexRevenue pt = 0%float) acc ->
  fallback_months Math_pow LocalTZA fuel START_DATE now current acc = Some months ->
  Forall (fun pt => stockValue pt <> None /\ alexRevenue pt = 0%float) months.
Proof.
  revert current acc. induction fuel as [|fuel IH]; intros current acc Hacc.
  - discriminate.
  - rewrite fallback_months_S. destruct (current <=? now)%Z.
    + apply IH. apply Forall_app. split; [exact Hacc|].
      constructor; [|constructor]. cbn. split; [discriminate | reflexivity].
    + now intros [= <-].
Qed.

(** The fallback loop ends, whatever the clock reads. *)
Lemma fallback_months_ends (now : Z) :
  exists N months,
    forall fuel, (N <= fuel)%nat ->
      fallback_months Math_pow LocalTZA fuel START_DATE now START_DATE []
      = Some months.
Proof.
  destruct (Z.le_gt_cases START_DATE now) as [Hnow | Hnow].
  - destruct (fallback_months_run Math_pow LocalTZA now
                (S (Z.to_nat (now - START_DATE))) 0 [])
      as (c & _ & Hrun).
    { exact Hnow. }
    { pose proof (month_date_grows LocalTZA LocalTZA_range
                    (S (Z.to_nat (now - START_DATE))) 0) as H.
      rewrite Nat.add_0_l in *.
      replace (month_date LocalTZA 0) with START_DATE in H by reflexivity.
      lia. }
    replace (month_date LocalTZA 0) with START_DATE in Hrun by reflexivity.
    exists (S (S c)). eexists. intros fuel Hfuel. apply Hrun. lia.
  - exists 1%nat, []. intros [|fuel] Hfuel; [lia|].
    rewrite fallback_months_S. now rewrite (proj2 (Z.leb_gt _ _) Hnow).
Qed.

(** The fallback ends, in a state with the advisory. *)
Lemma fallback_ends (now : Z) (st : State) :
  exists N st',
    (forall fuel, (N <= fuel)%nat ->
       fallback Math_pow LocalTZA fuel now st = Some st')
    /\ loading st' = false
    /\ Forall (fun pt => stockValue pt <> None /\ alexRevenue pt = 0%float)
              (googleHistory st')
    /\ error st' <> None
    /\ setGoogle (googlePrice st) (googleHistory st) (loading st) (error st) st'
       = st.
Proof.
  destruct (fallback_months_ends now) as (N & months & Hends).
  exists N. eexists. split.
  - intros fuel Hfuel. rewrite fallback_eq, (Hends fuel Hfuel). reflexivity.
  - cbn [loading googleHistory error setGoogle]. repeat split.
    + apply (fallback_months_points N now START_DATE []);
        [constructor | now apply Hends].
    + discriminate.
    + destruct st; reflexivity.
Qed.

(** X11: the equity fetch settles, whatever the two requests give (each
    throws, or returns with or without its [timestamp] and [close] arrays)
    and whatever the clock reads: the fallback loop ends, [loading] is off,
    every point of the history has a stock value and 0 as Alex's revenue,
    the advisory is absent exactly when the answer used (the direct one
    unless it threw, then the proxy's) has both arrays, whatever the proxy
    gives makes no difference once the direct request returned, and nothing
    but the four cells of the fetch changes. *)
Theorem fetchGoogleStock_settles (yahoo proxy : answer) (now : Z)
    (st : State) :
  exists N st',
    (forall fuel, (N <= fuel)%nat ->
       fetchGoogleStock Math_pow LocalTZA fuel yahoo proxy now st = Some st')
    /\ loading st' = false
    /\ Forall (fun pt => stockValue pt <> None /\ alexRevenue pt = 0%float)
              (googleHistory st')
    /\ (error st' = None
        <-> exists timestamps prices,
              stockData yahoo proxy = Returned (Some timestamps) (Some prices))
    /\ (yahoo <> Threw ->
        forall fuel proxy',
          fetchGoogleStock Math_pow LocalTZA fuel yahoo proxy' now st
          = fetchGoogleStock Math_pow LocalTZA fuel yahoo proxy now st)
    /\ setGoogle (googlePrice st) (googleHistory st) (loading st) (error st) st'
       = st.
Proof.
  assert (Hok : forall d,
            Forall (fun pt => stockValue pt <> None /\ alexRevenue pt = 0%float)
                   (build_history LocalTZA d)).
  { intros d. rewrite build_history_kept. apply Forall_forall. intros pt Hpt.
    apply in_map_iff in Hpt as (i & <- & Hi).
    apply filter_In in Hi as [_ Hi].
    rewrite stockValue_history_point, Hi. unfold priced in Hi.
    destruct (nth i (prices d) None); [|discriminate].
    split; [discriminate | reflexivity]. }
  assert (Hproxy : yahoo <> Threw ->
            forall fuel proxy',
              fetchGoogleStock Math_pow LocalTZA fuel yahoo proxy' now st
              = fetchGoogleStock Math_pow LocalTZA fuel yahoo proxy now st).
  { intros Hy fuel proxy'. unfold fetchGoogleStock, stockData.
    destruct yahoo; [contradiction | reflexivity]. }
  destruct (fallback_ends now st) as (N & stf & Hends & Hl & Hh & He & Hf).
  unfold fetchGoogleStock at 1.
  destruct (stockData yahoo proxy) as [|[timestamps|] [prices|]] eqn:Hdata;
    try (exists N, stf;
         split; [exact Hends|]; split; [exact Hl|]; split; [exact Hh|];
         split; [|split; [exact Hproxy | exact Hf]];
         split; [intros H; contradiction
                | intros (timestamps' & prices' & H); discriminate]).
  exists 0%nat. eexists. split; [reflexivity|].
  cbn [loading googleHistory error setGoogle].
  split; [reflexivity|]. split; [apply Hok|].
  split; [|split; [exact Hproxy | destruct st; reflexivity]].
  split; [|reflexivity]. intros _. now exists timestamps, prices.
Qed.

End MoreFetcher.

Lemma headline_is_last_point_witness :
  exists st' front pt,
    fetchGoogleStock pow_by_products (fixed_zone 0) 0
      (returned sample_payload) Threw 1700000000000 (init None) = Some st'
    /\ googleHistory st' = front ++ [pt]
    /\ stockValue pt = currentStockValue st'
    /\ currentStockValue st' = Some (Math_round (shares * 100)).
Proof.
  apply (headline_is_last_point pow_by_products (fixed_zone 0) 0 Threw
           1700000000000 (init None) sample_payload 100); reflexivity.
Defined.

Lemma fetchGoogleStock_settles_witness :
  (forall t isUTC, (- msPerDay < new_york_2023 t isUTC < msPerDay)%Z)
  /\ (exists st',
        fetchGoogleStock pow_by_products new_york_2023 10
          (Returned None (Some [Some 100%float])) (returned sample_payload)
          1680476400000 (init None) = Some st'
        /\ error st'
           = Some "Could not fetch live data. Using estimated values."
        /\ googlePrice st' = Some 197%float
        /\ List.length (googleHistory st') = 4%nat)
  /\ exists N st',
       (forall fuel, (N <= fuel)%nat ->
          fetchGoogleStock pow_by_products new_york_2023 fuel
            (Returned None (Some [Some 100%float])) (returned sample_payload)
            1680476400000 (init None) = Some st')
       /\ loading st' = false
       /\ Forall (fun pt => stockValue pt <> None /\ alexRevenue pt = 0%float)
                 (googleHistory st')
       /\ (error st' = None
           <-> exists timestamps prices,
                 stockData (Returned None (Some [Some 100%float]))
                   (returned sample_payload)
                 = Returned (Some timestamps) (Some prices))
       /\ (Returned None (Some [Some 100%float]) <> Threw ->
           forall fuel proxy',
             fetchGoogleStock pow_by_products new_york_2023 fuel
               (Returned None (Some [Some 100%float])) proxy'
               1680476400000 (init None)
             = fetchGoogleStock pow_by_products new_york_2023 fuel
                 (Returned None (Some [Some 100%float]))
                 (returned sample_payload) 1680476400000 (init None))
       /\ setGoogle (googlePrice (init None)) (googleHistory (init None))
            (loading (init None)) (error (init None)) st'
          = init None.
Proof.
  assert (Hzone : forall t isUTC,
            (- msPerDay < new_york_2023 t isUTC < msPerDay)%Z).
  { intros t isUTC. unfold new_york_2023, msPerDay.
    destruct isUTC; destruct (_ && _)%bool; lia. }
  pose (final :=
          match fetchGoogleStock pow_by_products new_york_2023 10
                  (Returned None (Some [Some 100%float]))
                  (returned sample_payload) 1680476400000 (init None)
          with Some st' => st' | None => init None end).
  split; [exact Hzone|].
  split; [exists final; repeat split; vm_compute; reflexivity|].
  exact (fetchGoogleStock_settles pow_by_products new_york_2023 Hzone
           (Returned None (Some [Some 100%float])) (returned sample_payload)
           1680476400000 (init None)).
Defined.

(* ================================================================== *)
(** ** Further properties: sessions                                    *)
(* ================================================================== *)

Import Presenter.

Section Sessions.

Variable Math_pow : number -> number -> number.
Variable LocalTZA : Z -> bool -> Z.

Section Ends.

Hypothesis LocalTZA_range :
  forall t isUTC, (- msPerDay < LocalTZA t isUTC < msPerDay)%Z.

Lemma fetchGoogleStock_ends (yahoo proxy : answer) (now : Z)
    (st : State) :
  exists N st',
    forall fuel, (N <= fuel)%nat ->
      fetchGoogleStock Math_pow LocalTZA fuel yahoo proxy now st = Some st'.
Proof.
  destruct (fallback_months_ends Math_pow LocalTZA LocalTZA_range now)
    as (N & months & Hends).
  unfold fetchGoogleStock.
  destruct (stockData yahoo proxy) as [|[timestamps|] [prices|]];
    try (exists N; eexists; intros fuel Hfuel;
         rewrite fallback_eq, (Hends fuel Hfuel); reflexivity).
  exists 0%nat. eexists. reflexivity.
Qed.

Lemma handle_ends (e : event) (st : State) :
  exists N st',
    forall fuel, (N <= fuel)%nat -> handle Math_pow LocalTZA fuel e st = Some st'.
Proof.
  destruct e as [| typed | typed | typed | now | | row | response
                 | yahoo proxy now]; cbn [handle];
    try (destruct (showAddForm st); exists 0%nat; eexists; intros fuel _;
         reflexivity).
  - destruct (nth_error (ventures st) row) as [venture|];
      [destruct (negb (is_bitcoin venture))|];
      exists 0%nat; eexists; intros fuel _; reflexivity.
  - apply fetchGoogleStock_ends.
Qed.

(** X12: every sequence of events is handled: with enough turns allowed to
    the fallback loop, the component reaches a state, the same one however
    many more turns are allowed. *)
Theorem run_ends (events : list event) (st : State) :
  exists N st',
    forall fuel, (N <= fuel)%nat -> run Math_pow LocalTZA fuel events st = Some st'.
Proof.
  revert st. induction events as [|e events IH]; intros st.
  - exists 0%nat, st. reflexivity.
  - destruct (handle_ends e st) as (N1 & st1 & H1).
    destruct (IH st1) as (N2 & st2 & H2).
    exists (Nat.max N1 N2), st2. intros fuel Hfuel.
    cbn [run]. rewrite H1 by lia. apply H2. lia.
Qed.

End Ends.

(** What the events leave of the venture list. *)

Lemma fetchGoogleStock_ventures (fuel : nat) (yahoo proxy : answer)
    (now : Z) (st st' : State) :
  fetchGoogleStock Math_pow LocalTZA fuel yahoo proxy now st = Some st' ->
  ventures st' = ventures st /\ bitcoinValue st' = bitcoinValue st.
Proof.
  unfold fetchGoogleStock, fallback.
  destruct (stockData yahoo proxy) as [|[timestamps|] [prices|]];
    try (destruct (fallback_months _ _ _ _ _ _ _); [|discriminate]);
    now intros [= <-].
Qed.

Lemma update_after_fetch (response : option number) (st : State) :
  exists value,
    bitcoinValue (update_bitcoin_venture (fetchBitcoinPrice response st))
    = Some value
    /\ ventures (update_bitcoin_venture (fetchBitcoinPrice response st))
       = map (fun v =>
                if is_bitcoin v then
                  {| id := id v; name := name v;
                     revenue := VNum (Math_round (value - BTC_INVESTMENT));
                     expenses := expenses v; isBitcoin := isBitcoin v |}
                else v) (ventures st).
Proof. destruct response; eexists; split; reflexivity. Qed.

Lemma NoDup_snoc {A : Type} (l : list A) (a : A) :
  NoDup l -> ~ In a l -> NoDup (l ++ [a]).
Proof.
  induction l as [|b l IH]; intros Hnd Ha.
  - constructor; [intros [] | constructor].
  - inversion Hnd as [|? ? Hb Hl]; subst. cbn [app]. constructor.
    + rewrite in_app_iff. intros [H | [-> | []]]; [now apply Hb|].
      apply Ha. now left.
    + apply IH; [exact Hl|]. intros H. apply Ha. now right.
Qed.

Lemma NoDup_map_filter {A B : Type} (f : A -> B) (g : A -> bool) (l : list A) :
  NoDup (map f l) -> NoDup (map f (filter g l)).
Proof.
  induction l as [|a l IH]; intros Hnd; [constructor|].
  inversion Hnd as [|? ? Ha Hl]; subst. cbn [filter].
  destruct (g a); [|now apply IH].
  cbn [map]. constructor; [|now apply IH].
  intros H. apply Ha. apply in_map_iff in H as (b & Hb & Hin).
  apply filter_In in Hin as [Hin _]. rewrite <- Hb. now apply in_map.
Qed.

Lemma filter_filter_implied {A : Type} (f g : A -> bool) (l : list A) :
  (forall a, In a l -> f a = true -> g a = true) ->
  filter f (filter g l) = filter f l.
Proof.
  induction l as [|a l IH]; intros H; [reflexivity|].
  cbn [filter].
  assert (IH' : filter f (filter g l) = filter f l)
    by (apply IH; intros b Hb; apply H; now right).
  destruct (g a) eqn:Hg; cbn [filter].
  - now rewrite IH'.
  - destruct (f a) eqn:Hf; [|exact IH'].
    rewrite (H a (or_introl eq_refl) Hf) in Hg. discriminate.
Qed.

Lemma filter_bitcoin_patch (value : number) (l : list Venture) :
  List.length
    (filter is_bitcoin
       (map (fun v =>
               if is_bitcoin v then
                 {| id := id v; name := name v;
                    revenue := VNum (Math_round (value - BTC_INVESTMENT));
                    expenses := expenses v; isBitcoin := isBitcoin v |}
               else v) l))
  = List.length (filter is_bitcoin l).
Proof.
  induction l as [|v l IH]; [reflexivity|].
  cbn [map filter]. destruct (is_bitcoin v) eqn:Hv.
  - unfold is_bitcoin at 1. cbn [isBitcoin]. fold (is_bitcoin v).
    rewrite Hv. cbn [List.length]. now rewrite IH.
  - now rewrite Hv.
Qed.

Lemma map_id_patch (value : number) (l : list Venture) :
  map id
    (map (fun v =>
            if is_bitcoin v then
              {| id := id v; name := name v;
                 revenue := VNum (Math_round (value - BTC_INVESTMENT));
                 expenses := expenses v; isBitcoin := isBitcoin v |}
            else v) l)
  = map id l.
Proof.
  rewrite map_map. apply map_ext. intros v. now destruct (is_bitcoin v).
Qed.

Lemma one_bitcoin_init : one_bitcoin (init None).
Proof.
  split; [|reflexivity].
  repeat constructor; simpl; intuition discriminate.
Qed.

Lemma handle_one_bitcoin (fuel : nat) (e : event) (st st' : State) :
  one_bitcoin st ->
  match e with
  | ClickAdd now => ~ In now (map id (ventures st))
  | _ => True
  end ->
  handle Math_pow LocalTZA fuel e st = Some st' ->
  one_bitcoin st'.
Proof.
  intros [Hnd Hone] Hfresh. unfold one_bitcoin.
  destruct e as [| typed | typed | typed | now | | row | response
                 | yahoo proxy now]; cbn [handle].
  - now intros [= <-].
  - destruct (showAddForm st); now intros [= <-].
  - destruct (showAddForm st); now intros [= <-].
  - destruct (showAddForm st); now intros [= <-].
  - destruct (showAddForm st); [|now intros [= <-]].
    intros [= <-]. unfold addVenture.
    destruct (truthy_string (trim (form_name (newVenture st)))); cbn [negb];
      [|now split].
    cbn [setForm setVentures ventures]. split.
    + rewrite map_app. now apply NoDup_snoc.
    + rewrite filter_app, length_app. cbn. lia.
  - destruct (showAddForm st); now intros [= <-].
  - destruct (nth_error (ventures st) row) as [venture|] eqn:Hrow;
      [|now intros [= <-]].
    destruct (is_bitcoin venture) eqn:Hv; cbn [negb]; [now intros [= <-]|].
    intros [= <-]. unfold deleteVenture. cbn [setVentures ventures]. split.
    + now apply NoDup_map_filter.
    + rewrite filter_filter_implied; [exact Hone|].
      intros v Hin Hflag. apply negb_true_iff, Z.eqb_neq. intros Hid.
      assert (v = venture).
      { apply (NoDup_map_inj id (ventures st)); trivial.
        now apply nth_error_In in Hrow. }
      congruence.
  - intros [= <-].
    destruct (update_after_fetch response st) as (value & _ & ->).
    now rewrite map_id_patch, filter_bitcoin_patch.
  - intros H. apply fetchGoogleStock_ventures in H as [-> _]. now split.
Qed.

(** X13: from a state with pairwise distinct ids and one Bitcoin venture,
    such as the one of a fresh load, every state of a session has pairwise
    distinct ids and one Bitcoin venture, provided each added venture gets a
    clock value that is the id of no venture then in the list. *)
Theorem one_bitcoin_kept (fuel : nat) (events : list event) (st st' : State) :
  one_bitcoin st ->
  fresh_clocks Math_pow LocalTZA fuel events st ->
  run Math_pow LocalTZA fuel events st = Some st' ->
  one_bitcoin st'.
Proof.
  revert st. induction events as [|e events IH]; intros st Hst Hfresh.
  - now intros [= <-].
  - cbn [run fresh_clocks] in *. destruct Hfresh as [He Hrest].
    destruct (handle Math_pow LocalTZA fuel e st) as [st1|] eqn:Hstep;
      [|discriminate].
    apply IH; [|exact Hrest].
    now apply (handle_one_bitcoin fuel e st).
Qed.

Lemma handle_patched (fuel : nat) (e : event) (st st' : State) :
  revenue_patched st ->
  handle Math_pow LocalTZA fuel e st = Some st' ->
  revenue_patched st'.
Proof.
  intros Hst.
  destruct e as [| typed | typed | typed | now | | row | response
                 | yahoo proxy now]; cbn [handle].
  - now intros [= <-].
  - destruct (showAddForm st); now intros [= <-].
  - destruct (showAddForm st); now intros [= <-].
  - destruct (showAddForm st); now intros [= <-].
  - destruct (showAddForm st); [|now intros [= <-]].
    intros [= <-]. unfold addVenture.
    destruct (truthy_string (trim (form_name (newVenture st)))); cbn [negb];
      [|exact Hst].
    intros value r Hvalue Hin Hflag.
    cbn [setForm setVentures ventures bitcoinValue] in Hvalue, Hin.
    apply in_app_iff in Hin as [Hin | [<- | []]]; [|discriminate].
    now apply (Hst value r).
  - destruct (showAddForm st); now intros [= <-].
  - destruct (nth_error (ventures st) row) as [venture|];
      [|now intros [= <-]].
    destruct (negb (is_bitcoin venture)); [|now intros [= <-]].
    intros [= <-] value r Hvalue Hin Hflag.
    unfold deleteVenture in Hvalue, Hin.
    cbn [setVentures ventures bitcoinValue] in Hvalue, Hin.
    apply filter_In in Hin as [Hin _]. now apply (Hst value r).
  - intros [= <-] value r Hvalue Hin Hflag.
    destruct (update_after_fetch response st) as (value' & Hvalue' & Hlist).
    rewrite Hvalue' in Hvalue. injection Hvalue as ->.
    rewrite Hlist in Hin. apply in_map_iff in Hin as (u & <- & _).
    destruct (is_bitcoin u) eqn:Hu; [reflexivity | congruence].
  - intros H value r Hvalue Hin Hflag.
    apply fetchGoogleStock_ventures in H as [Hv Hb].
    rewrite Hv in Hin. rewrite Hb in Hvalue. now apply (Hst value r).
Qed.

Lemma run_patched (fuel : nat) (events : list event) (st st' : State) :
  revenue_patched st ->
  run Math_pow LocalTZA fuel events st = Some st' ->
  revenue_patched st'.
Proof.
  revert st. induction events as [|e events IH]; intros st Hst.
  - now intros [= <-].
  - cbn [run].
    destruct (handle Math_pow LocalTZA fuel e st) as [st1|] eqn:Hstep;
      [|discriminate].
    apply IH. now apply (handle_patched fuel e st).
Qed.

(** X14: in every state a session settles in (the effects of a render
    having run), whatever was stored when it started, each row of the table
    shows the revenue its record holds: an ordinary row the numeric value of
    its revenue after a dollar sign; the row of a Bitcoin venture the
    placeholder while there is no crypto snapshot, and from then on the
    number in its revenue field, signed, after a dollar sign. *)
Theorem rows_show_stored_revenue (saved : option document) (fuel : nat)
    (events : list event) (st' : State) :
  run Math_pow LocalTZA fuel events (init saved) = Some st' ->
  forall r, In r (ventures st') ->
    (is_bitcoin r = false ->
     getBitcoinRevenueDisplay st' r
     = ("$" ++ toLocaleString (revenue_value (revenue r)))%string)
    /\ (is_bitcoin r = true ->
        match bitcoinValue st' with
        | None => getBitcoinRevenueDisplay st' r = "..."%string
        | Some _ =>
            exists x,
              revenue r = VNum x
              /\ getBitcoinRevenueDisplay st' r
                 = ((if (0 <=? x)%float then "+" else "") ++ "$"
                    ++ toLocaleString x)%string
        end).
Proof.
  intros Hrun r Hin.
  assert (Hpatched : revenue_patched st').
  { apply (run_patched fuel events (init saved)); [|exact Hrun].
    intros value u Hvalue. discriminate. }
  unfold getBitcoinRevenueDisplay. split; intros Hflag; rewrite Hflag;
    cbn [negb].
  - now rewrite or_zero_revenue_value.
  - destruct (bitcoinValue st') as [value|] eqn:Hvalue; [|reflexivity].
    exists (Math_round (value - BTC_INVESTMENT)).
    split; [now apply (Hpatched value r) | reflexivity].
Qed.

End Sessions.

Lemma run_ends_witness :
  (forall t isUTC, (- msPerDay < new_york_2023 t isUTC < msPerDay)%Z)
  /\ exists N st',
       forall fuel, (N <= fuel)%nat ->
         run pow_by_products new_york_2023 fuel sample_session (init None)
         = Some st'.
Proof.
  assert (Hzone : forall t isUTC,
            (- msPerDay < new_york_2023 t isUTC < msPerDay)%Z).
  { intros t isUTC. unfold new_york_2023, msPerDay.
    destruct isUTC; destruct (_ && _)%bool; lia. }
  split; [exact Hzone|].
  exact (run_ends pow_by_products new_york_2023 Hzone sample_session
           (init None)).
Defined.

Lemma one_bitcoin_kept_witness :
  exists st',
    run pow_by_products (fixed_zone 0) 10 sample_session (init None) = Some st'
    /\ map id (ventures st') = [2; 3; 4; 5; 6; 7; 8; 1700000000000]%Z
    /\ one_bitcoin st'.
Proof.
  pose (final := match run pow_by_products (fixed_zone 0) 10 sample_session (init None)
                 with Some st' => st' | None => init None end).
  assert (Hrun : run pow_by_products (fixed_zone 0) 10 sample_session (init None)
                 = Some final)
    by (vm_compute; reflexivity).
  assert (Hfresh : fresh_clocks pow_by_products (fixed_zone 0) 10 sample_session (init None))
    by (vm_compute; intuition discriminate).
  exists final.
  split; [exact Hrun|]. split; [vm_compute; reflexivity|].
  exact (one_bitcoin_kept pow_by_products (fixed_zone 0) 10 sample_session (init None) final
           one_bitcoin_init Hfresh Hrun).
Defined.

Lemma rows_show_stored_revenue_witness :
  exists st',
    run pow_by_products (fixed_zone 0) 10 sample_session (init (Some legacy_document))
    = Some st'
    /\ forall r, In r (ventures st') ->
         (is_bitcoin r = false ->
          getBitcoinRevenueDisplay st' r
          = ("$" ++ toLocaleString (revenue_value (revenue r)))%string)
         /\ (is_bitcoin r = true ->
             match bitcoinValue st' with
             | None => getBitcoinRevenueDisplay st' r = "..."%string
             | Some _ =>
                 exists x,
                   revenue r = VNum x
                   /\ getBitcoinRevenueDisplay st' r
                      = ((if (0 <=? x)%float then "+" else "") ++ "$"
                         ++ toLocaleString x)%string
             end).
Proof.
  pose (final := match run pow_by_products (fixed_zone 0) 10 sample_session
                         (init (Some legacy_document))
                 with Some st' => st' | None => init None end).
  assert (Hrun : run pow_by_products (fixed_zone 0) 10 sample_session
                   (init (Some legacy_document))
                 = Some final)
    by (vm_compute; reflexivity).
  exists final.
  split; [exact Hrun|].
  exact (rows_show_stored_revenue pow_by_products (fixed_zone 0)
           (Some legacy_document) 10
           sample_session final Hrun).
Defined.
